(** * Token brokering for Power BI embedding: the two brokers and their claims

    The repository holds two brokers that hand a Power BI embed configuration
    to a browser:

    - the edge function [supabase/functions/get-powerbi-embed-config/index.ts]
      (module [Edge]), which verifies the caller's session token locally and
      then talks to Azure AD and Power BI with [fetch];
    - the Express service of [packages/token-api]
      ([services/powerbiService.js], [services/authService.js],
      [routes/embedRoutes.js], [config/config.js]; module [TokenApi]).

    A later revision of the edge function, whose text survives only in part,
    validates the shape of the embed-token response; its minting function is
    module [EdgeValidated].

    Handlers are embedded as computations in a small exception-and-log monad:
    the log is the chronological list of calls made to the collaborators that
    live outside the repository (the JWT library, [fetch], MSAL).  What those
    collaborators answer is read from a [World]. *)

From Stdlib Require Import String Ascii ZArith List DecimalString Bool Lia.
From Stdlib.Strings Require Import Byte.
From stdpp Require Import gmap strings list.

Open Scope string_scope.
Set Warnings "-register-all".

(** ** JavaScript values that cross the wire *)

Module Js.

(** A parsed JSON document.  Numbers are restricted to integers; objects keep
    their fields in source order, the way [JSON.stringify] prints them. *)
Inductive json : Type :=
| JNull
| JBool (b : bool)
| JNum (n : Z)
| JStr (s : string)
| JArr (items : list json)
| JObj (fields : list (string * json)).

(** A JavaScript value as the handlers see it: [None] is [undefined]. *)
Definition jsval : Type := option json.

Fixpoint assoc (k : string) (fields : list (string * json)) : jsval :=
  match fields with
  | [] => None
  | (k', v) :: rest => if String.eqb k k' then Some v else assoc k rest
  end.

(** [v.k]: reading a property of [null] raises a TypeError, reading one of an
    object looks the field up, and none of the properties read by the brokers
    exists on a primitive or on an array. *)
Definition get_prop (v : json) (k : string) : string + jsval :=
  match v with
  | JNull => inl ("Cannot read properties of null (reading '" +:+ k +:+ "')")
  | JObj fields => inr (assoc k fields)
  | _ => inr None
  end.

(** Truthiness, as tested by [if (x)], [!x] and [x || y]. *)
Definition truthy (v : jsval) : bool :=
  match v with
  | None | Some JNull => false
  | Some (JBool b) => b
  | Some (JNum n) => negb (n =? 0)%Z
  | Some (JStr s) => negb (String.eqb s EmptyString)
  | Some (JArr _) | Some (JObj _) => true
  end.

Definition truthy_str (s : option string) : bool :=
  match s with
  | None => false
  | Some s => negb (String.eqb s EmptyString)
  end.

(** [a || b] on optional strings. *)
Definition or_else (a b : option string) : option string :=
  if truthy_str a then a else b.

(** [a || 'literal']. *)
Definition or_default (a : option string) (d : string) : string :=
  match a with
  | Some s => if String.eqb s EmptyString then d else s
  | None => d
  end.

Definition nat_to_string (n : nat) : string :=
  NilZero.string_of_uint (Nat.to_uint n).

(** The string a template literal [`${v}`] splices in. *)
Fixpoint json_to_string (v : json) : string :=
  match v with
  | JNull => "null"
  | JBool true => "true"
  | JBool false => "false"
  | JNum n => NilZero.string_of_int (Z.to_int n)
  | JStr s => s
  | JArr items =>
      (fix join (l : list json) : string :=
         match l with
         | [] => EmptyString
         | x :: rest =>
             let sx := match x with JNull => EmptyString | _ => json_to_string x end in
             match rest with
             | [] => sx
             | _ :: _ => sx +:+ "," +:+ join rest
             end
         end) items
  | JObj _ => "[object Object]"
  end.

Definition to_string (v : jsval) : string :=
  match v with
  | None => "undefined"
  | Some j => json_to_string j
  end.

Definition str_to_string (s : option string) : string :=
  match s with
  | None => "undefined"
  | Some s => s
  end.

(** [typeof v === 'string'] *)
Definition is_string (v : jsval) : bool :=
  match v with
  | Some (JStr _) => true
  | _ => false
  end.

(** An object literal as [JSON.stringify] serialises it: a field whose value is
    [undefined] is left out. *)
Fixpoint object (fields : list (string * jsval)) : list (string * json) :=
  match fields with
  | [] => []
  | (k, Some v) :: rest => (k, v) :: object rest
  | (_, None) :: rest => object rest
  end.

(** [hay.includes(needle)] *)
Fixpoint includes (needle hay : string) : bool :=
  String.prefix needle hay ||
  match hay with
  | EmptyString => false
  | String _ rest => includes needle rest
  end.

(** [s.substring(n)] *)
Fixpoint substring_from (n : nat) (s : string) : string :=
  match n, s with
  | O, _ => s
  | S n', String _ rest => substring_from n' rest
  | S _, EmptyString => EmptyString
  end.

End Js.

Import Js.

(** ** The world outside the repository *)

(** The body handed to [fetch]: a form ([URLSearchParams], before
    percent-encoding), a JSON document ([JSON.stringify]), or none. *)
Inductive FetchBody : Type :=
| NoBody
| FormBody (params : list (string * string))
| JsonBody (doc : json).

Record FetchReq : Type := {
  fr_method : string;
  fr_url : string;
  fr_headers : list (string * string);
  fr_body : FetchBody
}.

(** What [fetch] resolves to.  [resp_text] is [response.text()];
    [resp_json] is [response.json()], which rejects with a message when the
    text is not JSON. *)
Record HttpResponse : Type := {
  resp_status : nat;
  resp_text : string;
  resp_json : string + json
}.

(** [response.ok] *)
Definition resp_ok (r : HttpResponse) : bool :=
  ((200 <=? resp_status r) && (resp_status r <=? 299))%nat.

(** A key produced by [crypto.subtle.importKey('raw', bytes, HMAC/SHA-256)]. *)
Record CryptoKey : Type := { ck_raw : list byte }.

(** The three shapes in which the edge function hands the signing secret to
    djwt's [verify]. *)
Inductive JwtKey : Type :=
| KeyString (secret : string)
| KeyBytes (raw : list byte)
| KeyCrypto (key : CryptoKey).

(** Which upstream a [fetch] is addressed to. *)
Inductive Upstream : Type :=
| Grant
| ReportMeta
| Mint
| ListReports.

(** One call to a collaborator outside the repository. *)
Inductive Event : Type :=
| EVerify (token : string) (key : JwtKey)
| EFetch (to : Upstream) (rq : FetchReq)
| EMsal (scopes : list string).

(** The calls of the protocol's upstream steps: the service-principal grant
    and the Power BI REST calls.  Local signature checks are not upstream. *)
Definition is_upstream (e : Event) : bool :=
  match e with
  | EVerify _ _ => false
  | EFetch _ _ | EMsal _ => true
  end.

Definition upstream_calls (tr : list Event) : list Event :=
  List.filter is_upstream tr.

Definition is_verify (e : Event) : bool :=
  match e with
  | EVerify _ _ => true
  | _ => false
  end.

Record World : Type := {
  (** [Deno.env] / [process.env] *)
  w_env : gmap string string;
  (** [new Date().toISOString()] *)
  w_now : string;
  (** [fetch]: a rejection message, or a response *)
  w_fetch : FetchReq -> string + HttpResponse;
  (** std/encoding/base64 [decode], which throws on malformed input *)
  w_base64_decode : string -> string + list byte;
  (** [crypto.subtle.importKey] *)
  w_import_key : list byte -> string + CryptoKey;
  (** djwt [verify(token, key)]: a rejection message, or the payload *)
  w_verify : string -> JwtKey -> string + json;
  (** MSAL [acquireTokenByClientCredential]: a rejection message, or the
      [accessToken] of the response ([None] for a null response or a
      response without one) *)
  w_msal : list string -> string + option string;
  (** of two requests in flight that both fail, whether the one issued first
      is also the first to settle *)
  w_first_settles_first : bool
}.

(** ** Exceptions and the call log *)

Inductive outcome (A : Type) : Type :=
| Ok (a : A)
| Throw (message : string).
Arguments Ok {A} a.
Arguments Throw {A} message.

Definition M (A : Type) : Type := list Event -> outcome A * list Event.

Definition ret {A} (a : A) : M A := fun tr => (Ok a, tr).

Definition throw {A} (message : string) : M A := fun tr => (Throw message, tr).

Definition bind {A B} (m : M A) (k : A -> M B) : M B :=
  fun tr =>
    match m tr with
    | (Ok a, tr') => k a tr'
    | (Throw e, tr') => (Throw e, tr')
    end.

(** [try { body } catch (error) { handler(error.message) }] *)
Definition try_catch {A} (body : M A) (handler : string -> M A) : M A :=
  fun tr =>
    match body tr with
    | (Ok a, tr') => (Ok a, tr')
    | (Throw e, tr') => handler e tr'
    end.

Definition emit (e : Event) : M unit := fun tr => (Ok tt, (tr ++ [e])%list).

(** A library call that either throws or returns. *)
Definition lift {A} (r : string + A) : M A :=
  match r with
  | inl e => throw e
  | inr a => ret a
  end.

Declare Scope broker_scope.
Delimit Scope broker_scope with broker.
Notation "x <- m ;; k" := (bind m (fun x => k))
  (at level 100, m at next level, right associativity) : broker_scope.
Notation "m ;;; k" := (bind m (fun _ => k))
  (at level 100, right associativity) : broker_scope.
Open Scope broker_scope.

(** [await fetch(url, init)], logged when the request is issued. *)
Definition fetch (w : World) (to : Upstream) (rq : FetchReq) : M HttpResponse :=
  emit (EFetch to rq) ;;; lift (w_fetch w rq).

(** [await verify(token, key)] *)
Definition verify (w : World) (token : string) (key : JwtKey) : M json :=
  emit (EVerify token key) ;;; lift (w_verify w token key).

(** [await Promise.all([a, b])].  Both calls are made before either is
    awaited, so both run up to their first network request whatever happens to
    the other.  The result rejects with the first rejection: one raised before
    any request was issued precedes every other; between two requests that
    both fail the network decides. *)
Definition promise_all {A B} (w : World) (a : M A) (b : M B) : M (A * B) :=
  fun tr =>
    let '(ra, tr1) := a tr in
    let '(rb, tr2) := b tr1 in
    match ra, rb with
    | Ok x, Ok y => (Ok (x, y), tr2)
    | Throw e, Ok _ => (Throw e, tr2)
    | Ok _, Throw e => (Throw e, tr2)
    | Throw ea, Throw eb =>
        if (length tr1 =? length tr)%nat then (Throw ea, tr2)
        else if (length tr2 =? length tr1)%nat then (Throw eb, tr2)
        else if w_first_settles_first w then (Throw ea, tr2)
        else (Throw eb, tr2)
    end.

Definition run {A} (m : M A) : outcome A * list Event := m [].

(** Computations only ever append to the log.

    What a computation returns and what it appends do not depend on the log
    it starts from, so a computation can be studied from the empty log. *)

Definition extends {A} (m : M A) : Prop :=
  forall tr, m tr = (fst (m []), (tr ++ snd (m []))%list).

(** The upstream answers the request [rq] with a success whose body parses to
    [doc]. *)
Definition answers (w : World) (rq : FetchReq) (doc : json) : Prop :=
  exists response,
    w_fetch w rq = inr response /\ resp_ok response = true
    /\ resp_json response = inr doc.

(** What a Power BI call returns, given the answer to its request. *)
Definition powerbi_answer (prefix : string) (answer : string + HttpResponse)
    : outcome json :=
  match answer with
  | inl e => Throw e
  | inr response =>
      if negb (resp_ok response)
      then Throw (prefix +:+ nat_to_string (resp_status response)
                  +:+ "): " +:+ resp_text response)
      else match resp_json response with
           | inl e => Throw e
           | inr doc => Ok doc
           end
  end.


(** The display settings both brokers attach to every configuration. *)
Definition default_settings : json :=
  JObj [("panes", JObj [("filters", JObj [("expanded", JBool false);
                                           ("visible", JBool true)]);
                        ("pageNavigation", JObj [("visible", JBool true)])]);
        ("bars", JObj [("statusBar", JObj [("visible", JBool true)])])].

(** ** The edge function: supabase/functions/get-powerbi-embed-config/index.ts *)

Module Edge.

Definition corsHeaders : list (string * string) :=
  [("Access-Control-Allow-Origin", "*");
   ("Access-Control-Allow-Headers",
    "authorization, x-client-info, apikey, content-type");
   ("Access-Control-Allow-Methods", "POST, GET, OPTIONS, PUT, DELETE")].

(** The inbound [Request]: its method and its headers, keyed by lower-cased
    name as the Fetch API's [Headers] keeps them. *)
Record Request : Type := {
  req_method : string;
  req_headers : gmap string string
}.

(** The outbound [Response]: status, headers, and the JSON document that was
    stringified into the body ([None] for a null body). *)
Record Response : Type := {
  res_status : nat;
  res_headers : list (string * string);
  res_body : option json
}.

Definition env_get (w : World) (name : string) : option string :=
  w_env w !! name.

(** The request of the client-credentials grant: the arguments of the
    [fetch] in [getAzureAccessToken]. *)
Definition grantRequest (w : World) : FetchReq :=
  let clientId := env_get w "AZURE_CLIENT_ID" in
  let clientSecret := env_get w "AZURE_CLIENT_SECRET" in
  let tenantId := env_get w "AZURE_TENANT_ID" in
  let scope := or_default (env_get w "POWERBI_SCOPE")
                 "https://analysis.windows.net/powerbi/api/.default" in
  let tokenUrl := "https://login.microsoftonline.com/"
                  +:+ str_to_string tenantId +:+ "/oauth2/v2.0/token" in
  let body := FormBody [("client_id", str_to_string clientId);
                        ("client_secret", str_to_string clientSecret);
                        ("scope", scope);
                        ("grant_type", "client_credentials")] in
  {| fr_method := "POST";
     fr_url := tokenUrl;
     fr_headers := [("Content-Type", "application/x-www-form-urlencoded")];
     fr_body := body |}.

(** [getAzureAccessToken]: the client-credentials grant. *)
Definition getAzureAccessToken (w : World) : M jsval :=
  let clientId := env_get w "AZURE_CLIENT_ID" in
  let clientSecret := env_get w "AZURE_CLIENT_SECRET" in
  let tenantId := env_get w "AZURE_TENANT_ID" in
  if negb (truthy_str clientId) || negb (truthy_str clientSecret)
     || negb (truthy_str tenantId)
  then throw "Missing Azure Service Principal configuration"
  else
    response <- fetch w Grant (grantRequest w) ;;
    if negb (resp_ok response)
    then throw ("Failed to acquire Azure AD token: "
                +:+ nat_to_string (resp_status response) +:+ " "
                +:+ resp_text response)
    else
      tokenData <- lift (resp_json response) ;;
      lift (get_prop tokenData "access_token").

Definition apiUrl (w : World) : string :=
  or_default (env_get w "POWERBI_API_URL") "https://api.powerbi.com".

Definition bearer_headers (accessToken : string) : list (string * string) :=
  [("Authorization", "Bearer " +:+ accessToken);
   ("Content-Type", "application/json")].

(** The arguments of the [fetch] in [getPowerBIReportDetails]. *)
Definition reportRequest (w : World) (accessToken : jsval)
    (workspaceId reportId : string) : FetchReq :=
  let reportUrl := apiUrl w +:+ "/v1.0/myorg/groups/" +:+ workspaceId
                   +:+ "/reports/" +:+ reportId in
  {| fr_method := "GET";
     fr_url := reportUrl;
     fr_headers := bearer_headers (to_string accessToken);
     fr_body := NoBody |}.

(** [getPowerBIReportDetails] *)
Definition getPowerBIReportDetails (w : World) (accessToken : jsval)
    (workspaceId reportId : string) : M json :=
  response <- fetch w ReportMeta
                (reportRequest w accessToken workspaceId reportId) ;;
  if negb (resp_ok response)
  then throw ("Power BI API error (" +:+ nat_to_string (resp_status response)
              +:+ "): " +:+ resp_text response)
  else lift (resp_json response).

(** The [requestBody] of [generatePowerBIEmbedToken]: the [identities] entry
    is added under [if (userId)]. *)
Definition mintRequestBody (userId : jsval) : json :=
  JObj (object
    ([("accessLevel", Some (JStr "View"));
      ("allowSaveAs", Some (JBool false))]
     ++ (if truthy userId
         then [("identities",
                Some (JArr [JObj (object [("username", userId);
                                          ("roles", Some (JArr []));
                                          ("datasets", Some (JArr []))])]))]
         else []))%list).

(** The arguments of the [fetch] in [generatePowerBIEmbedToken]. *)
Definition mintRequest (w : World) (accessToken : jsval)
    (workspaceId reportId : string) (userId : jsval) : FetchReq :=
  let embedTokenUrl := apiUrl w +:+ "/v1.0/myorg/groups/" +:+ workspaceId
                       +:+ "/reports/" +:+ reportId +:+ "/GenerateToken" in
  {| fr_method := "POST";
     fr_url := embedTokenUrl;
     fr_headers := bearer_headers (to_string accessToken);
     fr_body := JsonBody (mintRequestBody userId) |}.

(** [generatePowerBIEmbedToken] *)
Definition generatePowerBIEmbedToken (w : World) (accessToken : jsval)
    (workspaceId reportId : string) (userId : jsval) : M json :=
  response <- fetch w Mint
                (mintRequest w accessToken workspaceId reportId userId) ;;
  if negb (resp_ok response)
  then throw ("Failed to generate embed token ("
              +:+ nat_to_string (resp_status response)
              +:+ "): " +:+ resp_text response)
  else lift (resp_json response).

(** The three verification attempts of [verifySupabaseJWT], each in its own
    [try]: the first that succeeds returns the payload. *)
Definition verifyAttempts (w : World) (token jwtSecret : string) : M json :=
  try_catch (verify w token (KeyString jwtSecret)) (fun _ =>
  try_catch (rawSecretBytes <- lift (w_base64_decode w jwtSecret) ;;
             verify w token (KeyBytes rawSecretBytes)) (fun _ =>
  try_catch (rawSecretBytes <- lift (w_base64_decode w jwtSecret) ;;
             cryptoKey <- lift (w_import_key w rawSecretBytes) ;;
             verify w token (KeyCrypto cryptoKey)) (fun _ =>
  throw "All JWT verification methods failed"))).

(** [verifySupabaseJWT] *)
Definition verifySupabaseJWT (w : World) (authHeader : option string) : M json :=
  if negb (truthy_str authHeader)
     || negb (String.prefix "Bearer " (str_to_string authHeader))
  then throw "Missing or invalid Authorization header"
  else
    let token := substring_from 7 (str_to_string authHeader) in
    let jwtSecret := env_get w "_SUPABASE_JWT_SECRET" in
    if negb (truthy_str jwtSecret)
    then throw "Missing _SUPABASE_JWT_SECRET environment variable"
    else
      try_catch
        (_ <- lift (w_base64_decode w (str_to_string jwtSecret)) ;;
         verifyAttempts w token (str_to_string jwtSecret))
        (fun _ => throw "Invalid or expired token").

(** The [embedConfig] object literal of the handler. *)
Definition embedConfig (reportDetails embedTokenData : json) : M json :=
  id <- lift (get_prop reportDetails "id") ;;
  embedUrl <- lift (get_prop reportDetails "embedUrl") ;;
  token <- lift (get_prop embedTokenData "token") ;;
  tokenId <- lift (get_prop embedTokenData "tokenId") ;;
  expiration <- lift (get_prop embedTokenData "expiration") ;;
  ret (JObj (object [("type", Some (JStr "report"));
                     ("id", id);
                     ("embedUrl", embedUrl);
                     ("accessToken", token);
                     ("tokenId", tokenId);
                     ("expiration", expiration);
                     ("settings", Some default_settings)])).

Definition json_headers : list (string * string) :=
  (corsHeaders ++ [("Content-Type", "application/json")])%list.

(** [{success: true, data, timestamp}] with the default status 200. *)
Definition success_response (w : World) (data : json) : Response :=
  {| res_status := 200;
     res_headers := json_headers;
     res_body := Some (JObj [("success", JBool true);
                             ("data", data);
                             ("timestamp", JStr (w_now w))]) |}.

(** The status chosen in the handler's [catch]. *)
Definition statusCode (message : string) : nat :=
  if includes "Invalid or expired token" message then 401
  else if includes "Missing" message then 400
  else 500.

Definition error_response (w : World) (message : string) : Response :=
  {| res_status := statusCode message;
     res_headers := json_headers;
     res_body := Some (JObj [("success", JBool false);
                             ("error", JStr message);
                             ("timestamp", JStr (w_now w))]) |}.

(** The [try] block of the handler. *)
Definition brokering (w : World) (req : Request) : M Response :=
  let authHeader := req_headers req !! "authorization" in
  jwtPayload <- verifySupabaseJWT w (Some (or_default authHeader EmptyString)) ;;
  userId <- lift (get_prop jwtPayload "sub") ;;
  userEmail <- lift (get_prop jwtPayload "email") ;;
  let workspaceId := env_get w "POWERBI_WORKSPACE_ID" in
  let reportId := env_get w "POWERBI_REPORT_ID" in
  if negb (truthy_str workspaceId) || negb (truthy_str reportId)
  then throw "Missing Power BI workspace or report configuration"
  else
    azureAccessToken <- getAzureAccessToken w ;;
    both <- promise_all w
      (getPowerBIReportDetails w azureAccessToken
         (str_to_string workspaceId) (str_to_string reportId))
      (generatePowerBIEmbedToken w azureAccessToken
         (str_to_string workspaceId) (str_to_string reportId) userId) ;;
    config <- embedConfig (fst both) (snd both) ;;
    ret (success_response w config).

(** The function passed to [serve]: the pre-flight answer, or the [try] block
    with its [catch]. *)
Definition serve (w : World) (req : Request) : Response * list Event :=
  if String.eqb (req_method req) "OPTIONS"
  then ({| res_status := 200; res_headers := corsHeaders; res_body := None |}, [])
  else
    match run (brokering w req) with
    | (Ok response, tr) => (response, tr)
    | (Throw message, tr) => (error_response w message, tr)
    end.

End Edge.

(** ** The later revision of the edge function

    Its [generatePowerBIEmbedToken] is the one of [Edge] up to the [response.ok]
    test and then parses and validates the answer.  The surviving text breaks
    off after the validation; the function is closed here by returning the
    validated [embedTokenData], as its signature and its caller require. *)

Module EdgeValidated.

(** The condition of the validating [if]:
    [!embedTokenData || typeof embedTokenData.token !== 'string' || ...]. *)
Definition malformed (embedTokenData : json) : bool :=
  negb (truthy (Some embedTokenData))
  || match get_prop embedTokenData "token",
           get_prop embedTokenData "tokenId",
           get_prop embedTokenData "expiration" with
     | inr token, inr tokenId, inr expiration =>
         negb (is_string token) || negb (is_string tokenId)
         || negb (is_string expiration)
     | _, _, _ => true
     end.

Definition dquote : string := String "034"%char EmptyString.

(** The [catch] around [response.json()] starts by reading [response.text()];
    the body was consumed by [json()], so that read rejects with Deno's
    TypeError for a body read twice. *)
Definition body_already_consumed : string := "Body already consumed.".

Definition malformed_message : string :=
  "Power BI embed token response is missing expected "
  +:+ dquote +:+ "token" +:+ dquote +:+ ", "
  +:+ dquote +:+ "tokenId" +:+ dquote +:+ ", or "
  +:+ dquote +:+ "expiration" +:+ dquote +:+ " properties".

Definition generatePowerBIEmbedToken (w : World) (accessToken : jsval)
    (workspaceId reportId : string) (userId : jsval) : M json :=
  response <- fetch w Mint
                (Edge.mintRequest w accessToken workspaceId reportId userId) ;;
  if negb (resp_ok response)
  then throw ("Failed to generate embed token ("
              +:+ nat_to_string (resp_status response)
              +:+ "): " +:+ resp_text response)
  else
    embedTokenData <-
      try_catch (lift (resp_json response))
        (fun jsonError =>
           rawResponseText <- throw (A := string) body_already_consumed ;;
           throw ("Failed to parse embed token response: " +:+ jsonError)) ;;
    if malformed embedTokenData
    then throw malformed_message
    else ret embedTokenData.

End EdgeValidated.

(** ** The Express service: packages/token-api *)

Module TokenApi.

(** [config] of config/config.js, read from [process.env]. *)
Record Config : Type := {
  azure_clientId : option string;
  azure_clientSecret : option string;
  azure_tenantId : option string;
  azure_authority : string;
  powerbi_workspaceId : option string;
  powerbi_reportId : option string;
  powerbi_apiUrl : string;
  powerbi_scope : string
}.

Definition config (w : World) : Config :=
  {| azure_clientId := w_env w !! "AZURE_CLIENT_ID";
     azure_clientSecret := w_env w !! "AZURE_CLIENT_SECRET";
     azure_tenantId := w_env w !! "AZURE_TENANT_ID";
     azure_authority := or_default (w_env w !! "AZURE_AUTHORITY")
                          "https://login.microsoftonline.com/";
     powerbi_workspaceId := w_env w !! "POWERBI_WORKSPACE_ID";
     powerbi_reportId := w_env w !! "POWERBI_REPORT_ID";
     powerbi_apiUrl := or_default (w_env w !! "POWERBI_API_URL")
                         "https://api.powerbi.com";
     powerbi_scope := or_default (w_env w !! "POWERBI_SCOPE")
                        "https://analysis.windows.net/powerbi/api/.default" |}.

(** A configured string as a JavaScript value. *)
Definition of_str (s : option string) : jsval :=
  match s with
  | Some s => Some (JStr s)
  | None => None
  end.

(** [a || b] on values. *)
Definition or_val (a b : jsval) : jsval :=
  if truthy a then a else b.

(** [AuthService.getAccessToken] of services/authService.js *)
Definition getAccessToken (w : World) : M string :=
  try_catch
    (emit (EMsal [powerbi_scope (config w)]) ;;;
     response <- lift (w_msal w [powerbi_scope (config w)]) ;;
     if negb (truthy_str response)
     then throw "Failed to acquire access token"
     else ret (str_to_string response))
    (fun message => throw ("Authentication failed: " +:+ message)).

Definition bearer_headers (accessToken : string) : list (string * string) :=
  [("Authorization", "Bearer " +:+ accessToken);
   ("Content-Type", "application/json")].

(** [reportId || config.powerbi.reportId] *)
Definition targetReportId (w : World) (reportId : jsval) : jsval :=
  or_val reportId (of_str (powerbi_reportId (config w))).

(** [workspaceId || config.powerbi.workspaceId] *)
Definition targetWorkspaceId (w : World) (workspaceId : jsval) : jsval :=
  or_val workspaceId (of_str (powerbi_workspaceId (config w))).

(** The arguments of the [fetch] in [generateEmbedToken]. *)
Definition mintRequest (w : World) (accessToken : string)
    (reportId workspaceId : jsval) : FetchReq :=
  let embedTokenUrl :=
    powerbi_apiUrl (config w) +:+ "/v1.0/myorg/groups/"
    +:+ to_string (targetWorkspaceId w workspaceId) +:+ "/reports/"
    +:+ to_string (targetReportId w reportId) +:+ "/GenerateToken" in
  let requestBody := JObj (object [("accessLevel", Some (JStr "View"));
                                   ("allowSaveAs", Some (JBool false))]) in
  {| fr_method := "POST";
     fr_url := embedTokenUrl;
     fr_headers := bearer_headers accessToken;
     fr_body := JsonBody requestBody |}.

(** [PowerBIService.generateEmbedToken]; its [catch] logs and rethrows. *)
Definition generateEmbedToken (w : World) (accessToken : string)
    (reportId workspaceId : jsval) : M json :=
  if negb (truthy (targetReportId w reportId))
     || negb (truthy (targetWorkspaceId w workspaceId))
  then throw "Report ID and Workspace ID are required"
  else
    response <- fetch w Mint (mintRequest w accessToken reportId workspaceId) ;;
    if negb (resp_ok response)
    then throw ("Power BI API error (" +:+ nat_to_string (resp_status response)
                +:+ "): " +:+ resp_text response)
    else lift (resp_json response).

(** The arguments of the [fetch] in [getReportDetails]. *)
Definition reportRequest (w : World) (accessToken : string)
    (reportId workspaceId : jsval) : FetchReq :=
  let reportUrl :=
    powerbi_apiUrl (config w) +:+ "/v1.0/myorg/groups/"
    +:+ to_string (targetWorkspaceId w workspaceId) +:+ "/reports/"
    +:+ to_string (targetReportId w reportId) in
  {| fr_method := "GET";
     fr_url := reportUrl;
     fr_headers := bearer_headers accessToken;
     fr_body := NoBody |}.

(** [PowerBIService.getReportDetails]; its [catch] logs and rethrows. *)
Definition getReportDetails (w : World) (accessToken : string)
    (reportId workspaceId : jsval) : M json :=
  response <- fetch w ReportMeta
                (reportRequest w accessToken reportId workspaceId) ;;
  if negb (resp_ok response)
  then throw ("Power BI API error (" +:+ nat_to_string (resp_status response)
              +:+ "): " +:+ resp_text response)
  else lift (resp_json response).

(** The [embedConfig] object literal of [getEmbedConfig]. *)
Definition embedConfig (reportDetails embedTokenData : json) : M json :=
  id <- lift (get_prop reportDetails "id") ;;
  embedUrl <- lift (get_prop reportDetails "embedUrl") ;;
  token <- lift (get_prop embedTokenData "token") ;;
  tokenId <- lift (get_prop embedTokenData "tokenId") ;;
  expiration <- lift (get_prop embedTokenData "expiration") ;;
  ret (JObj (object [("type", Some (JStr "report"));
                     ("id", id);
                     ("embedUrl", embedUrl);
                     ("accessToken", token);
                     ("tokenId", tokenId);
                     ("expiration", expiration);
                     ("settings", Some default_settings)])).

(** [PowerBIService.getEmbedConfig] *)
Definition getEmbedConfig (w : World) (reportId workspaceId : jsval) : M json :=
  accessToken <- getAccessToken w ;;
  both <- promise_all w
    (getReportDetails w accessToken reportId workspaceId)
    (generateEmbedToken w accessToken reportId workspaceId) ;;
  embedConfig (fst both) (snd both).

(** [PowerBIService.listReports]; the count it logs reads [data.value.length]. *)
Definition listReports (w : World) (workspaceId : jsval) : M json :=
  accessToken <- getAccessToken w ;;
  let reportsUrl := powerbi_apiUrl (config w) +:+ "/v1.0/myorg/groups/"
                    +:+ to_string (targetWorkspaceId w workspaceId)
                    +:+ "/reports" in
  response <- fetch w ListReports
    {| fr_method := "GET";
       fr_url := reportsUrl;
       fr_headers := bearer_headers accessToken;
       fr_body := NoBody |} ;;
  if negb (resp_ok response)
  then throw ("Power BI API error (" +:+ nat_to_string (resp_status response)
              +:+ "): " +:+ resp_text response)
  else
    data <- lift (resp_json response) ;;
    value <- lift (get_prop data "value") ;;
    match value with
    | None => throw "Cannot read properties of undefined (reading 'length')"
    | Some JNull => throw "Cannot read properties of null (reading 'length')"
    | Some v => ret v
    end.

(** The Express request, as far as the routes can see it: headers by
    lower-cased name and the parsed query string. *)
Record Request : Type := {
  req_headers : gmap string string;
  req_query : list (string * json)
}.

Record Response : Type := {
  res_status : nat;
  res_body : json
}.

Definition failure (w : World) (message : string) : Response :=
  {| res_status := 500;
     res_body := JObj [("success", JBool false);
                       ("error", JStr message);
                       ("timestamp", JStr (w_now w))] |}.

Definition respond (w : World) (body : M json) : Response * list Event :=
  match run body with
  | (Ok doc, tr) => ({| res_status := 200; res_body := doc |}, tr)
  | (Throw message, tr) => (failure w message, tr)
  end.

(** [router.get('/config')] of routes/embedRoutes.js *)
Definition get_config (w : World) (req : Request) : Response * list Event :=
  respond w
    (let reportId := assoc "reportId" (req_query req) in
     let workspaceId := assoc "workspaceId" (req_query req) in
     embedConfig <- getEmbedConfig w reportId workspaceId ;;
     ret (JObj [("success", JBool true);
                ("data", embedConfig);
                ("timestamp", JStr (w_now w))])).

(** [router.get('/token')].  embedRoutes.js imports [express] and
    [powerbiService] only, so evaluating [authService] raises a
    ReferenceError inside the [try]. *)
Definition get_token (w : World) (req : Request) : Response * list Event :=
  respond w
    (let reportId := assoc "reportId" (req_query req) in
     let workspaceId := assoc "workspaceId" (req_query req) in
     accessToken <- throw (A := string) "authService is not defined" ;;
     embedTokenData <- generateEmbedToken w accessToken reportId workspaceId ;;
     token <- lift (get_prop embedTokenData "token") ;;
     tokenId <- lift (get_prop embedTokenData "tokenId") ;;
     expiration <- lift (get_prop embedTokenData "expiration") ;;
     ret (JObj [("success", JBool true);
                ("data", JObj (object [("token", token);
                                       ("tokenId", tokenId);
                                       ("expiration", expiration)]));
                ("timestamp", JStr (w_now w))])).

(** One element of [reports.map(report => ({id, name, embedUrl, datasetId}))]. *)
Definition report_summary (report : json) : M json :=
  id <- lift (get_prop report "id") ;;
  name <- lift (get_prop report "name") ;;
  embedUrl <- lift (get_prop report "embedUrl") ;;
  datasetId <- lift (get_prop report "datasetId") ;;
  ret (JObj (object [("id", id); ("name", name);
                     ("embedUrl", embedUrl); ("datasetId", datasetId)])).

Fixpoint map_reports (reports : list json) : M (list json) :=
  match reports with
  | [] => ret []
  | report :: rest =>
      summary <- report_summary report ;;
      summaries <- map_reports rest ;;
      ret (summary :: summaries)
  end.

(** [router.get('/reports')] *)
Definition get_reports (w : World) (req : Request) : Response * list Event :=
  respond w
    (let workspaceId := assoc "workspaceId" (req_query req) in
     reports <- listReports w workspaceId ;;
     match reports with
     | JArr items =>
         summaries <- map_reports items ;;
         ret (JObj [("success", JBool true);
                    ("data", JArr summaries);
                    ("count", JNum (Z.of_nat (length items)));
                    ("timestamp", JStr (w_now w))])
     | _ => throw "reports.map is not a function"
     end).

End TokenApi.

(** ** The rest of the Express service

    [validateConfig] of config/config.js, [AuthService.validateConfig] of
    services/authService.js, the routes of routes/healthRoutes.js, the
    middleware of middleware/errorHandler.js and [router.post('/config')] of
    routes/embedRoutes.js.  Three primitives of the runtime are taken as
    given: whether [new URL(s)] accepts a string, [String.prototype.trim], and
    object spread. *)

Module Service.

(** The result of [validateConfig]. *)
Record Validation : Type := {
  isValid : bool;
  errors : list string;
  warnings : list string
}.

(** An error as the error-handling middleware reads it. *)
Record Err : Type := {
  err_name : jsval;
  err_message : jsval;
  err_stack : jsval
}.

(** The request of [router.post('/config')]: headers and the parsed JSON
    body ([None] when no body was parsed). *)
Record PostRequest : Type := {
  post_headers : gmap string string;
  post_body : jsval
}.

(** [v === 'literal'] *)
Definition is_literal (v : jsval) (literal : string) : bool :=
  match v with
  | Some (JStr s) => String.eqb s literal
  | _ => false
  end.

(** [obj[k] = v] on an object: an existing field keeps its place. *)
Fixpoint upsert (k : string) (v : json) (fields : list (string * json))
    : list (string * json) :=
  match fields with
  | [] => [(k, v)]
  | (k', v') :: rest =>
      if String.eqb k k' then (k, v) :: rest else (k', v') :: upsert k v rest
  end.

Definition set_prop (obj : json) (k : string) (v : json) : json :=
  match obj with
  | JObj fields => JObj (upsert k v fields)
  | _ => obj
  end.

(** [config.server.nodeEnv] *)
Definition nodeEnv (w : World) : string :=
  or_default (w_env w !! "NODE_ENV") "development".

Section Runtime.

(** [new URL(s)] returns instead of throwing. *)
Variable valid_url : string -> bool.

(** [s.trim()] *)
Variable trim : string -> string.

(** [{...a, ...b}] *)
Variable spread : jsval -> json -> json.

(** [validateConfig] of config/config.js *)
Definition validateConfig (w : World) : Validation :=
  let c := TokenApi.config w in
  let errors :=
    ((if truthy_str (TokenApi.azure_clientId c) then []
      else ["AZURE_CLIENT_ID is required"])
     ++ (if truthy_str (TokenApi.azure_clientSecret c) then []
         else ["AZURE_CLIENT_SECRET is required"])
     ++ (if truthy_str (TokenApi.azure_tenantId c) then []
         else ["AZURE_TENANT_ID is required"])
     ++ (if truthy_str (TokenApi.powerbi_workspaceId c) then []
         else ["POWERBI_WORKSPACE_ID is required"])
     ++ (if valid_url (TokenApi.azure_authority c) then []
         else ["AZURE_AUTHORITY must be a valid URL"])
     ++ (if valid_url (TokenApi.powerbi_apiUrl c) then []
         else ["POWERBI_API_URL must be a valid URL"]))%list in
  let warnings :=
    if truthy_str (TokenApi.powerbi_reportId c) then []
    else ["POWERBI_REPORT_ID not set - will need to be provided in API calls"] in
  {| isValid := (length errors =? 0)%nat;
     errors := errors;
     warnings := warnings |}.

(** [AuthService.validateConfig] of services/authService.js:
    [requiredFields.every(field => field && field.trim() !== '')]. *)
Definition authValidateConfig (w : World) : bool :=
  let c := TokenApi.config w in
  forallb
    (fun field =>
       truthy_str field
       && negb (String.eqb (trim (str_to_string field)) EmptyString))
    [TokenApi.azure_clientId c;
     TokenApi.azure_clientSecret c;
     TokenApi.azure_tenantId c].

(** [router.get('/')] of routes/healthRoutes.js *)
Definition health (w : World) : TokenApi.Response :=
  let configValidation := validateConfig w in
  let authConfigValid := authValidateConfig w in
  let valid := isValid configValidation && authConfigValid in
  {| TokenApi.res_status := if valid then 200 else 503;
     TokenApi.res_body :=
       JObj [("status", JStr "ok");
             ("timestamp", JStr (w_now w));
             ("version", JStr "1.0.0");
             ("environment", JStr (nodeEnv w));
             ("configuration",
              JObj [("isValid", JBool valid);
                    ("errors", JArr (List.map JStr (errors configValidation)));
                    ("warnings",
                     JArr (List.map JStr (warnings configValidation)))]);
             ("services",
              JObj [("authentication",
                     JStr (if authConfigValid then "ready"
                           else "misconfigured"));
                    ("powerbi",
                     JStr (if isValid configValidation then "ready"
                           else "misconfigured"))])] |}.

(** [router.post('/config')] of routes/embedRoutes.js *)
Definition post_config (w : World) (req : PostRequest)
    : TokenApi.Response * list Event :=
  let handler : M TokenApi.Response :=
    body <- match post_body req with
            | None =>
                throw ("Cannot destructure property 'reportId' of 'req.body'"
                       +:+ " as it is undefined.")
            | Some JNull =>
                throw ("Cannot destructure property 'reportId' of 'req.body'"
                       +:+ " as it is null.")
            | Some body => ret body
            end ;;
    reportId <- lift (get_prop body "reportId") ;;
    workspaceId <- lift (get_prop body "workspaceId") ;;
    settings <- lift (get_prop body "settings") ;;
    if negb (truthy reportId) || negb (truthy workspaceId)
    then ret {| TokenApi.res_status := 400;
                TokenApi.res_body :=
                  JObj [("success", JBool false);
                        ("error", JStr "reportId and workspaceId are required");
                        ("timestamp", JStr (w_now w))] |}
    else
      embedConfig <- TokenApi.getEmbedConfig w reportId workspaceId ;;
      customised <-
        match settings with
        | Some custom =>
            if truthy settings
            then current <- lift (get_prop embedConfig "settings") ;;
                 ret (set_prop embedConfig "settings" (spread current custom))
            else ret embedConfig
        | None => ret embedConfig
        end ;;
      ret {| TokenApi.res_status := 200;
             TokenApi.res_body := JObj [("success", JBool true);
                                        ("data", customised);
                                        ("timestamp", JStr (w_now w))] |} in
  match run handler with
  | (Ok response, tr) => (response, tr)
  | (Throw message, tr) => (TokenApi.failure w message, tr)
  end.

End Runtime.

(** [router.get('/auth')] of routes/healthRoutes.js.  Strings stand for
    sequences of code units, so [accessToken.length] is their length. *)
Definition health_auth (w : World) : TokenApi.Response * list Event :=
  match run (TokenApi.getAccessToken w) with
  | (Ok accessToken, tr) =>
      ({| TokenApi.res_status := 200;
          TokenApi.res_body :=
            JObj [("status", JStr "ok");
                  ("message", JStr "Authentication successful");
                  ("hasToken", JBool (truthy_str (Some accessToken)));
                  ("tokenLength",
                   JNum (if truthy_str (Some accessToken)
                         then Z.of_nat (String.length accessToken)
                         else 0));
                  ("timestamp", JStr (w_now w))] |}, tr)
  | (Throw message, tr) =>
      ({| TokenApi.res_status := 500;
          TokenApi.res_body :=
            JObj [("status", JStr "error");
                  ("message", JStr "Authentication failed");
                  ("error", JStr message);
                  ("timestamp", JStr (w_now w))] |}, tr)
  end.

(** [errorHandler] of middleware/errorHandler.js *)
Definition errorHandler (w : World) (err : Err) : TokenApi.Response :=
  let '(statusCode, message) :=
    if is_literal (err_name err) "ValidationError"
    then (400, err_message err)
    else if is_literal (err_name err) "UnauthorizedError"
    then (401, Some (JStr "Unauthorized"))
    else if truthy (err_message err)
    then (500, err_message err)
    else (500, Some (JStr "Internal server error")) in
  {| TokenApi.res_status := statusCode;
     TokenApi.res_body :=
       JObj (object
               ([("success", Some (JBool false));
                 ("error", message);
                 ("timestamp", Some (JStr (w_now w)))]
                ++ (if is_literal (TokenApi.of_str (w_env w !! "NODE_ENV"))
                         "development"
                    then [("stack", err_stack err)]
                    else []))%list) |}.

(** The arguments of the [fetch] in [PowerBIService.listReports]. *)
Definition reportsRequest (w : World) (accessToken : string)
    (workspaceId : jsval) : FetchReq :=
  {| fr_method := "GET";
     fr_url := TokenApi.powerbi_apiUrl (TokenApi.config w)
               +:+ "/v1.0/myorg/groups/"
               +:+ to_string (TokenApi.targetWorkspaceId w workspaceId)
               +:+ "/reports";
     fr_headers := TokenApi.bearer_headers accessToken;
     fr_body := NoBody |}.

(** What [listReports] returns, given the answer of Power BI. *)
Definition listing_answer (answer : outcome json) : outcome json :=
  match answer with
  | Throw e => Throw e
  | Ok data =>
      match get_prop data "value" with
      | inl e => Throw e
      | inr None =>
          Throw "Cannot read properties of undefined (reading 'length')"
      | inr (Some JNull) =>
          Throw "Cannot read properties of null (reading 'length')"
      | inr (Some v) => Ok v
      end
  end.

(** The keys of an entry of the [/reports] listing. *)
Definition summary_keys : list string := ["id"; "name"; "embedUrl"; "datasetId"].

(** One entry of the listing: made of the four keys only, and carrying the
    [id] of the report it summarises. *)
Definition summarises (report summary : json) : Prop :=
  exists fields,
    summary = JObj fields
    /\ (forall k v, In (k, v) fields -> In k summary_keys)
    /\ get_prop summary "id" = get_prop report "id"
    /\ get_prop summary "embedUrl" = get_prop report "embedUrl".

(** The world [w] with another environment. *)
Definition with_env (w : World) (env : gmap string string) : World :=
  {| w_env := env;
     w_now := w_now w;
     w_fetch := w_fetch w;
     w_base64_decode := w_base64_decode w;
     w_import_key := w_import_key w;
     w_verify := w_verify w;
     w_msal := w_msal w;
     w_first_settles_first := w_first_settles_first w |}.

End Service.

(** ** Mocked worlds

    The upstream mocks of the spec's round trip, and variations of them. *)

Module Mock.

Definition report_doc : json :=
  JObj [("id", JStr "r1"); ("embedUrl", JStr "https://x");
        ("datasetId", JStr "d1")].

Definition token_doc : json :=
  JObj [("token", JStr "t1"); ("tokenId", JStr "k1");
        ("expiration", JStr "2099-01-01T00:00:00Z")].

(** The configuration the round trip must yield. *)
Definition expected_config : json :=
  JObj [("type", JStr "report");
        ("id", JStr "r1");
        ("embedUrl", JStr "https://x");
        ("accessToken", JStr "t1");
        ("tokenId", JStr "k1");
        ("expiration", JStr "2099-01-01T00:00:00Z");
        ("settings", default_settings)].

Definition grant_doc : json :=
  JObj [("access_token", JStr "aad"); ("token_type", JStr "Bearer");
        ("expires_in", JNum 3599)].

Definition ok_json (doc : json) : HttpResponse :=
  {| resp_status := 200; resp_text := EmptyString; resp_json := inr doc |}.

Definition failed (status : nat) (text : string) : HttpResponse :=
  {| resp_status := status; resp_text := text;
     resp_json := inl "Unexpected token in JSON" |}.

Definition env : gmap string string :=
  list_to_map [("AZURE_CLIENT_ID", "client");
               ("AZURE_CLIENT_SECRET", "secret");
               ("AZURE_TENANT_ID", "tenant");
               ("POWERBI_WORKSPACE_ID", "ws1");
               ("POWERBI_REPORT_ID", "r1");
               ("_SUPABASE_JWT_SECRET", "c2VjcmV0")].

(** Upstreams that answer the grant, the metadata fetch and the mint with the
    given documents, told apart by method and by the end of the URL. *)
Definition fetch_with (grant report token : HttpResponse) (rq : FetchReq)
    : string + HttpResponse :=
  if String.eqb (fr_method rq) "GET" then inr report
  else if includes "/GenerateToken" (fr_url rq) then inr token
  else inr grant.

Definition claims : json :=
  JObj [("sub", JStr "user-1"); ("email", JStr "user@example.org")].

Definition secret_bytes : list byte := [x73; x65; x63; x72; x65; x74].

(** A verifier that accepts the token [good] under every key shape. *)
Definition verify_any (token : string) (key : JwtKey) : string + json :=
  if String.eqb token "good" then inr claims
  else inl "The jwt's signature does not match the verification signature.".

(** A verifier that accepts [good] only when handed the decoded bytes. *)
Definition verify_bytes_only (token : string) (key : JwtKey) : string + json :=
  match key with
  | KeyBytes _ => verify_any token key
  | _ => inl "Key must be a CryptoKey"
  end.

Definition world (fetch : FetchReq -> string + HttpResponse) : World :=
  {| w_env := env;
     w_now := "2024-01-01T00:00:00.000Z";
     w_fetch := fetch;
     w_base64_decode := fun _ => inr secret_bytes;
     w_import_key := fun raw => inr {| ck_raw := raw |};
     w_verify := verify_any;
     w_msal := fun _ => inr (Some "aad");
     w_first_settles_first := true |}.

(** All upstreams healthy. *)
Definition healthy : World :=
  world (fetch_with (ok_json grant_doc) (ok_json report_doc) (ok_json token_doc)).

(** The mint answers without [tokenId]. *)
Definition token_doc_without_id : json :=
  JObj [("token", JStr "t1"); ("expiration", JStr "2099-01-01T00:00:00Z")].

Definition mint_without_id : World :=
  world (fetch_with (ok_json grant_doc) (ok_json report_doc)
           (ok_json token_doc_without_id)).

(** Azure AD refuses the grant; the text of its answer is [text]. *)
Definition grant_refused (status : nat) (text : string) : World :=
  world (fetch_with (failed status text) (ok_json report_doc) (ok_json token_doc)).

(** As [healthy], with the verifier that insists on decoded bytes. *)
Definition bytes_only : World :=
  {| w_env := env;
     w_now := w_now healthy;
     w_fetch := w_fetch healthy;
     w_base64_decode := w_base64_decode healthy;
     w_import_key := w_import_key healthy;
     w_verify := verify_bytes_only;
     w_msal := w_msal healthy;
     w_first_settles_first := true |}.

(** As [healthy], without a default report id. *)
Definition without_report_id : World :=
  {| w_env := delete "POWERBI_REPORT_ID" env;
     w_now := w_now healthy;
     w_fetch := w_fetch healthy;
     w_base64_decode := w_base64_decode healthy;
     w_import_key := w_import_key healthy;
     w_verify := verify_any;
     w_msal := w_msal healthy;
     w_first_settles_first := true |}.

Definition edge_request (method : string) (authorization : option string)
    : Edge.Request :=
  {| Edge.req_method := method;
     Edge.req_headers :=
       match authorization with
       | Some value => {[ "authorization" := value ]}
       | None => ∅
       end |}.

Definition api_request (authorization : option string)
    (query : list (string * json)) : TokenApi.Request :=
  {| TokenApi.req_headers :=
       match authorization with
       | Some value => {[ "authorization" := value ]}
       | None => ∅
       end;
     TokenApi.req_query := query |}.

End Mock.

(** ** Further mocked worlds *)

Module Scenario.

(** The environment the set-up guide describes: the signing secret is stored
    under [SUPABASE_JWT_SECRET]. *)
Definition guide_env : gmap string string :=
  <["SUPABASE_JWT_SECRET" := "c2VjcmV0"]> (delete "_SUPABASE_JWT_SECRET" Mock.env).

Definition guide_world : World := Service.with_env Mock.healthy guide_env.

(** No service principal configured. *)
Definition without_azure : World :=
  Service.with_env Mock.healthy (delete "AZURE_CLIENT_SECRET" Mock.env).

(** Power BI does not know the report; the mint still answers. *)
Definition report_not_found : World :=
  Mock.world (Mock.fetch_with (Mock.ok_json Mock.grant_doc)
                (Mock.failed 404 "not found") (Mock.ok_json Mock.token_doc)).

(** Power BI refuses the mint; the metadata fetch still answers. *)
Definition mint_forbidden : World :=
  Mock.world (Mock.fetch_with (Mock.ok_json Mock.grant_doc)
                (Mock.ok_json Mock.report_doc) (Mock.failed 403 "forbidden")).


(** The workspace lists two reports, the second with extra fields. *)
Definition reports_doc : json :=
  JObj [("value",
         JArr [Mock.report_doc;
               JObj [("id", JStr "r2"); ("name", JStr "Sales");
                     ("webUrl", JStr "https://app"); ("isOwnedByMe", JBool true)]])].

Definition listing : World :=
  Mock.world (fun _ => inr (Mock.ok_json reports_doc)).

(** A URL check that wants a scheme, and a trim that leaves strings alone. *)
Definition has_scheme (s : string) : bool := includes "://" s.

Definition no_trim (s : string) : string := s.

(** Object spread on two objects none of whose keys is an array index: the
    fields of the first, overridden in place by the second, then the new
    fields of the second. *)
Definition object_spread (a : jsval) (b : json) : json :=
  match a, b with
  | Some (JObj fa), JObj fb =>
      JObj (List.fold_left (fun acc kv => Service.upsert (fst kv) (snd kv) acc)
              fb fa)
  | _, _ => b
  end.

Definition post_request (body : jsval) : Service.PostRequest :=
  {| Service.post_headers := ∅; Service.post_body := body |}.

End Scenario.

(** * Properties *)

(** ** The monad *)

Lemma bind_Ok {A B} (m : M A) (k : A -> M B) tr a tr1 :
  m tr = (Ok a, tr1) -> bind m k tr = k a tr1.
Proof. intros H. unfold bind. rewrite H. reflexivity. Qed.

Lemma bind_Throw {A B} (m : M A) (k : A -> M B) tr e tr1 :
  m tr = (Throw e, tr1) -> bind m k tr = (Throw e, tr1).
Proof. intros H. unfold bind. rewrite H. reflexivity. Qed.

Lemma lift_run {A} (r : string + A) tr :
  lift r tr = (match r with inl e => Throw e | inr a => Ok a end, tr).
Proof. destruct r; reflexivity. Qed.

Lemma fetch_run w to rq tr :
  fetch w to rq tr =
  (match w_fetch w rq with inl e => Throw e | inr r => Ok r end,
   (tr ++ [EFetch to rq])%list).
Proof.
  unfold fetch, bind, emit. rewrite lift_run. reflexivity.
Qed.

Lemma verify_run w token key tr :
  verify w token key tr =
  (match w_verify w token key with inl e => Throw e | inr p => Ok p end,
   (tr ++ [EVerify token key])%list).
Proof.
  unfold verify, bind, emit. rewrite lift_run. reflexivity.
Qed.

Lemma upstream_calls_app tr1 tr2 :
  upstream_calls (tr1 ++ tr2) = (upstream_calls tr1 ++ upstream_calls tr2)%list.
Proof. apply List.filter_app. Qed.

(** ** Computations only ever append to the log *)

Create HintDb extends.

Lemma extends_ret {A} (a : A) : extends (ret a).
Proof. intros tr. unfold ret. simpl. rewrite List.app_nil_r. reflexivity. Qed.

Lemma extends_throw {A} (e : string) : extends (throw (A := A) e).
Proof. intros tr. unfold throw. simpl. rewrite List.app_nil_r. reflexivity. Qed.

Lemma extends_emit (e : Event) : extends (emit e).
Proof. intros tr. reflexivity. Qed.

Lemma extends_lift {A} (r : string + A) : extends (lift r).
Proof. destruct r; [apply extends_throw | apply extends_ret]. Qed.

Lemma extends_bind {A B} (m : M A) (k : A -> M B) :
  extends m -> (forall a, extends (k a)) -> extends (bind m k).
Proof.
  intros Hm Hk tr. unfold bind. rewrite (Hm tr).
  destruct (m []) as [[a | e] d]; simpl.
  - rewrite (Hk a (tr ++ d)%list), (Hk a d). simpl.
    rewrite List.app_assoc. reflexivity.
  - reflexivity.
Qed.

Lemma extends_try_catch {A} (body : M A) (handler : string -> M A) :
  extends body -> (forall e, extends (handler e)) ->
  extends (try_catch body handler).
Proof.
  intros Hb Hh tr. unfold try_catch. rewrite (Hb tr).
  destruct (body []) as [[a | e] d]; simpl.
  - reflexivity.
  - rewrite (Hh e (tr ++ d)%list), (Hh e d). simpl.
    rewrite List.app_assoc. reflexivity.
Qed.

Lemma extends_if {A} (c : bool) (m1 m2 : M A) :
  extends m1 -> extends m2 -> extends (if c then m1 else m2).
Proof. destruct c; auto. Qed.

Lemma length_app_eqb {X} (tr d : list X) :
  (length (tr ++ d) =? length tr)%nat = (length d =? 0)%nat.
Proof.
  rewrite List.length_app.
  destruct (Nat.eqb_spec (length d) 0) as [H | H].
  - rewrite H. rewrite Nat.add_0_r. apply Nat.eqb_refl.
  - apply Nat.eqb_neq. lia.
Qed.

Lemma extends_promise_all {A B} (w : World) (a : M A) (b : M B) :
  extends a -> extends b -> extends (promise_all w a b).
Proof.
  intros Ha Hb tr. unfold promise_all.
  rewrite (Ha tr). destruct (a []) as [ra da] eqn:Ea. simpl.
  rewrite (Hb (tr ++ da)%list), (Hb da).
  destruct (b []) as [rb db] eqn:Eb. simpl.
  rewrite <- (List.app_assoc tr da db).
  destruct ra as [x | ea], rb as [y | eb]; simpl; try reflexivity.
  rewrite (length_app_eqb tr da).
  rewrite (List.app_assoc tr da db), (length_app_eqb (tr ++ da)%list db).
  rewrite (length_app_eqb da db).
  change (length da =? length (@nil Event))%nat with (length da =? 0)%nat.
  rewrite <- (List.app_assoc tr da db).
  destruct (length da =? 0)%nat; [reflexivity |].
  destruct (length db =? 0)%nat; [reflexivity |].
  destruct (w_first_settles_first w); reflexivity.
Qed.

#[export] Hint Resolve extends_ret extends_throw extends_emit extends_lift
  extends_bind extends_try_catch extends_if extends_promise_all : extends.

Ltac extends_tac :=
  repeat first
    [ apply extends_ret | apply extends_throw | apply extends_emit
    | apply extends_lift | apply extends_if | apply extends_promise_all
    | apply extends_try_catch; [| intros ?]
    | apply extends_bind; [| intros ?] ].

Lemma extends_fetch w to rq : extends (fetch w to rq).
Proof. unfold fetch. extends_tac. Qed.

Lemma extends_verify w token key : extends (verify w token key).
Proof. unfold verify. extends_tac. Qed.

#[export] Hint Resolve extends_fetch extends_verify : extends.

Lemma bind_lift {A B} (r : string + A) (k : A -> M B) tr :
  bind (lift r) k tr =
  match r with
  | inl e => (Throw e, tr)
  | inr a => k a tr
  end.
Proof. destruct r; reflexivity. Qed.

Ltac extends_all :=
  cbv zeta;
  repeat first
    [ apply extends_ret | apply extends_throw | apply extends_emit
    | apply extends_lift | apply extends_fetch | apply extends_verify
    | apply extends_if | apply extends_promise_all
    | apply extends_try_catch; [| intros ?]
    | apply extends_bind; [| intros ?] ].

(** Runs the first computation of a sequence from the empty log and splits on
    its outcome. *)
Ltac bind_step :=
  match goal with
  | |- bind ?m ?k ?tr = _ =>
      let E := fresh "E" in
      assert (E : extends m) by (auto with extends || extends_all);
      specialize (E tr);
      let r := fresh "r" in
      let d := fresh "d" in
      let E0 := fresh "E0" in
      destruct (m []) as [[r | r] d] eqn:E0; simpl in E;
      [ first [ rewrite (bind_Ok m k tr _ _ E)
              | rewrite (bind_Ok m k tr _ _ E0) ]
      | first [ rewrite (bind_Throw m k tr _ _ E)
              | rewrite (bind_Throw m k tr _ _ E0) ] ]
  end.

(** ** The edge function, step by step *)

Lemma extends_verifySupabaseJWT w h : extends (Edge.verifySupabaseJWT w h).
Proof. unfold Edge.verifySupabaseJWT, Edge.verifyAttempts. extends_all. Qed.

Lemma extends_getAzureAccessToken w : extends (Edge.getAzureAccessToken w).
Proof. unfold Edge.getAzureAccessToken. extends_all. Qed.

Lemma extends_getPowerBIReportDetails w tok ws rep :
  extends (Edge.getPowerBIReportDetails w tok ws rep).
Proof. unfold Edge.getPowerBIReportDetails. extends_all. Qed.

Lemma extends_generatePowerBIEmbedToken w tok ws rep uid :
  extends (Edge.generatePowerBIEmbedToken w tok ws rep uid).
Proof. unfold Edge.generatePowerBIEmbedToken. extends_all. Qed.

Lemma extends_edge_embedConfig r t : extends (Edge.embedConfig r t).
Proof. unfold Edge.embedConfig. extends_all. Qed.

#[export] Hint Resolve extends_verifySupabaseJWT extends_getAzureAccessToken
  extends_getPowerBIReportDetails extends_generatePowerBIEmbedToken
  extends_edge_embedConfig : extends.

(** The status chosen for a failure is never the status of a success. *)
Lemma statusCode_cases (message : string) :
  Edge.statusCode message = 401 \/ Edge.statusCode message = 400
  \/ Edge.statusCode message = 500.
Proof.
  unfold Edge.statusCode.
  destruct (includes "Invalid or expired token" message); [auto |].
  destruct (includes "Missing" message); auto.
Qed.

(** [verifySupabaseJWT] as a decision tree over the answers of the JWT
    library. *)
Lemma verifySupabaseJWT_run w (h : option string) :
  run (Edge.verifySupabaseJWT w h) =
  if negb (truthy_str h) || negb (String.prefix "Bearer " (str_to_string h))
  then (Throw "Missing or invalid Authorization header", [])
  else
    let token := substring_from 7 (str_to_string h) in
    let secret := Edge.env_get w "_SUPABASE_JWT_SECRET" in
    if negb (truthy_str secret)
    then (Throw "Missing _SUPABASE_JWT_SECRET environment variable", [])
    else
      match w_base64_decode w (str_to_string secret) with
      | inl _ => (Throw "Invalid or expired token", [])
      | inr raw =>
          let first := EVerify token (KeyString (str_to_string secret)) in
          let second := EVerify token (KeyBytes raw) in
          match w_verify w token (KeyString (str_to_string secret)) with
          | inr payload => (Ok payload, [first])
          | inl _ =>
              match w_verify w token (KeyBytes raw) with
              | inr payload => (Ok payload, [first; second])
              | inl _ =>
                  match w_import_key w raw with
                  | inl _ => (Throw "Invalid or expired token", [first; second])
                  | inr key =>
                      let third := EVerify token (KeyCrypto key) in
                      match w_verify w token (KeyCrypto key) with
                      | inr payload => (Ok payload, [first; second; third])
                      | inl _ => (Throw "Invalid or expired token",
                                  [first; second; third])
                      end
                  end
              end
          end
      end.
Proof.
  unfold run, Edge.verifySupabaseJWT.
  destruct (negb (truthy_str h)
            || negb (String.prefix "Bearer " (str_to_string h)));
    [reflexivity |].
  cbv zeta.
  destruct (negb (truthy_str (Edge.env_get w "_SUPABASE_JWT_SECRET")));
    [reflexivity |].
  unfold Edge.verifyAttempts, try_catch, bind, verify, emit, lift, throw, ret.
  simpl.
  destruct (w_base64_decode w _) as [e | raw]; [reflexivity |].
  destruct (w_verify w _ (KeyString _)) as [e1 | p1]; [| reflexivity].
  destruct (w_verify w _ (KeyBytes raw)) as [e2 | p2]; [| reflexivity].
  destruct (w_import_key w raw) as [e3 | key]; [reflexivity |].
  destruct (w_verify w _ (KeyCrypto key)) as [e4 | p4]; reflexivity.
Qed.

(** Verifying the caller is local: it reaches no upstream. *)
Lemma verifySupabaseJWT_local w h :
  upstream_calls (snd (run (Edge.verifySupabaseJWT w h))) = [].
Proof.
  rewrite verifySupabaseJWT_run.
  repeat match goal with
         | |- context [if ?c then _ else _] => destruct c
         | |- context [match ?x with inl _ => _ | inr _ => _ end] => destruct x
         | _ => progress cbv zeta
         end; reflexivity.
Qed.

(** The grant issues at most one request; a token comes back only from a
    successful answer to it. *)
Lemma getAzureAccessToken_run w :
  run (Edge.getAzureAccessToken w) =
  if negb (truthy_str (Edge.env_get w "AZURE_CLIENT_ID"))
     || negb (truthy_str (Edge.env_get w "AZURE_CLIENT_SECRET"))
     || negb (truthy_str (Edge.env_get w "AZURE_TENANT_ID"))
  then (Throw "Missing Azure Service Principal configuration", [])
  else
    (match w_fetch w (Edge.grantRequest w) with
     | inl e => Throw e
     | inr response =>
         if negb (resp_ok response)
         then Throw ("Failed to acquire Azure AD token: "
                     +:+ nat_to_string (resp_status response) +:+ " "
                     +:+ resp_text response)
         else
           match resp_json response with
           | inl e => Throw e
           | inr tokenData =>
               match get_prop tokenData "access_token" with
               | inl e => Throw e
               | inr token => Ok token
               end
           end
     end, [EFetch Grant (Edge.grantRequest w)]).
Proof.
  unfold run, Edge.getAzureAccessToken. cbv zeta.
  destruct (negb (truthy_str (Edge.env_get w "AZURE_CLIENT_ID"))
            || negb (truthy_str (Edge.env_get w "AZURE_CLIENT_SECRET"))
            || negb (truthy_str (Edge.env_get w "AZURE_TENANT_ID")));
    [reflexivity |].
  unfold bind at 1. rewrite fetch_run.
  destruct (w_fetch w (Edge.grantRequest w)) as [e | response]; [reflexivity |].
  destruct (negb (resp_ok response)); [reflexivity |].
  unfold bind. rewrite lift_run.
  destruct (resp_json response) as [e | tokenData]; [reflexivity |].
  rewrite lift_run.
  destruct (get_prop tokenData "access_token"); reflexivity.
Qed.

Lemma getPowerBIReportDetails_run w tok ws rep :
  run (Edge.getPowerBIReportDetails w tok ws rep) =
  (powerbi_answer "Power BI API error ("
     (w_fetch w (Edge.reportRequest w tok ws rep)),
   [EFetch ReportMeta (Edge.reportRequest w tok ws rep)]).
Proof.
  unfold run, Edge.getPowerBIReportDetails, powerbi_answer.
  unfold bind. rewrite fetch_run.
  destruct (w_fetch w _) as [e | response]; [reflexivity |].
  destruct (negb (resp_ok response)); [reflexivity |].
  rewrite lift_run. destruct (resp_json response); reflexivity.
Qed.

Lemma generatePowerBIEmbedToken_run w tok ws rep uid :
  run (Edge.generatePowerBIEmbedToken w tok ws rep uid) =
  (powerbi_answer "Failed to generate embed token ("
     (w_fetch w (Edge.mintRequest w tok ws rep uid)),
   [EFetch Mint (Edge.mintRequest w tok ws rep uid)]).
Proof.
  unfold run, Edge.generatePowerBIEmbedToken, powerbi_answer.
  unfold bind. rewrite fetch_run.
  destruct (w_fetch w _) as [e | response]; [reflexivity |].
  destruct (negb (resp_ok response)); [reflexivity |].
  rewrite lift_run. destruct (resp_json response); reflexivity.
Qed.

Lemma powerbi_answer_Ok prefix answer doc :
  powerbi_answer prefix answer = Ok doc ->
  exists response, answer = inr response /\ resp_ok response = true
                   /\ resp_json response = inr doc.
Proof.
  unfold powerbi_answer. destruct answer as [e | response]; [discriminate |].
  destruct (resp_ok response) eqn:Hok; simpl; [| discriminate].
  destruct (resp_json response) as [e | d] eqn:Hjson; [discriminate |].
  intros H. injection H as ->. exists response. repeat split; assumption.
Qed.

(** The two Power BI calls under [Promise.all]: both requests are always
    issued, in source order. *)
Lemma edge_promise_all_log w tok ws rep uid :
  snd (run (promise_all w (Edge.getPowerBIReportDetails w tok ws rep)
              (Edge.generatePowerBIEmbedToken w tok ws rep uid))) =
  [EFetch ReportMeta (Edge.reportRequest w tok ws rep);
   EFetch Mint (Edge.mintRequest w tok ws rep uid)].
Proof.
  unfold run, promise_all.
  pose proof (getPowerBIReportDetails_run w tok ws rep) as Ha.
  unfold run in Ha. rewrite Ha.
  rewrite (extends_generatePowerBIEmbedToken w tok ws rep uid _).
  pose proof (generatePowerBIEmbedToken_run w tok ws rep uid) as Hb.
  unfold run in Hb. rewrite Hb. simpl.
  destruct (powerbi_answer _ _), (powerbi_answer _ _); simpl; try reflexivity.
  destruct (w_first_settles_first w); reflexivity.
Qed.

(** They both succeed exactly when both answers are successes, and fail with
    the error of a call that failed. *)
Lemma edge_promise_all_result w tok ws rep uid :
  let a := powerbi_answer "Power BI API error ("
             (w_fetch w (Edge.reportRequest w tok ws rep)) in
  let b := powerbi_answer "Failed to generate embed token ("
             (w_fetch w (Edge.mintRequest w tok ws rep uid)) in
  fst (run (promise_all w (Edge.getPowerBIReportDetails w tok ws rep)
              (Edge.generatePowerBIEmbedToken w tok ws rep uid))) =
  match a, b with
  | Ok r, Ok t => Ok (r, t)
  | Throw e, Ok _ => Throw e
  | Ok _, Throw e => Throw e
  | Throw ea, Throw eb => if w_first_settles_first w then Throw ea else Throw eb
  end.
Proof.
  cbv zeta. unfold run, promise_all.
  pose proof (getPowerBIReportDetails_run w tok ws rep) as Ha.
  unfold run in Ha. rewrite Ha.
  rewrite (extends_generatePowerBIEmbedToken w tok ws rep uid _).
  pose proof (generatePowerBIEmbedToken_run w tok ws rep uid) as Hb.
  unfold run in Hb. rewrite Hb. simpl.
  destruct (powerbi_answer _ _), (powerbi_answer _ _); simpl; try reflexivity.
  destruct (w_first_settles_first w); reflexivity.
Qed.

(** Assembling the configuration calls nobody. *)
Lemma edge_embedConfig_pure r t : snd (run (Edge.embedConfig r t)) = [].
Proof.
  unfold run, Edge.embedConfig, bind, lift, throw, ret.
  destruct (get_prop r "id"); [reflexivity |].
  destruct (get_prop r "embedUrl"); [reflexivity |].
  destruct (get_prop t "token"); [reflexivity |].
  destruct (get_prop t "tokenId"); [reflexivity |].
  destruct (get_prop t "expiration"); reflexivity.
Qed.

(** The [try] block of the handler, step by step from the empty log. *)
Lemma brokering_run w req :
  run (Edge.brokering w req) =
  let authHeader := Edge.req_headers req !! "authorization" in
  let workspaceId := Edge.env_get w "POWERBI_WORKSPACE_ID" in
  let reportId := Edge.env_get w "POWERBI_REPORT_ID" in
  match run (Edge.verifySupabaseJWT w
               (Some (or_default authHeader EmptyString))) with
  | (Throw e, vtr) => (Throw e, vtr)
  | (Ok jwtPayload, vtr) =>
      match get_prop jwtPayload "sub", get_prop jwtPayload "email" with
      | inl e, _ => (Throw e, vtr)
      | inr _, inl e => (Throw e, vtr)
      | inr userId, inr _ =>
          if negb (truthy_str workspaceId) || negb (truthy_str reportId)
          then (Throw "Missing Power BI workspace or report configuration", vtr)
          else
            match run (Edge.getAzureAccessToken w) with
            | (Throw e, gtr) => (Throw e, (vtr ++ gtr)%list)
            | (Ok azureAccessToken, gtr) =>
                let calls :=
                  promise_all w
                    (Edge.getPowerBIReportDetails w azureAccessToken
                       (str_to_string workspaceId) (str_to_string reportId))
                    (Edge.generatePowerBIEmbedToken w azureAccessToken
                       (str_to_string workspaceId) (str_to_string reportId)
                       userId) in
                match run calls with
                | (Throw e, ptr) => (Throw e, (vtr ++ gtr ++ ptr)%list)
                | (Ok both, ptr) =>
                    match fst (run (Edge.embedConfig (fst both) (snd both))) with
                    | Throw e => (Throw e, (vtr ++ gtr ++ ptr)%list)
                    | Ok config =>
                        (Ok (Edge.success_response w config),
                         (vtr ++ gtr ++ ptr)%list)
                    end
                end
            end
      end
  end.
Proof.
  cbv zeta. unfold run, Edge.brokering.
  bind_step; [| reflexivity]. simpl.
  rewrite bind_lift.
  destruct (get_prop r "sub") as [e | userId]; [reflexivity |].
  rewrite bind_lift.
  destruct (get_prop r "email") as [e | userEmail]; [reflexivity |].
  destruct (negb (truthy_str _) || negb (truthy_str _)); [reflexivity |].
  bind_step; [| reflexivity].
  bind_step; [| rewrite List.app_assoc; reflexivity].
  pose proof (edge_embedConfig_pure (fst r1) (snd r1)) as Hpure.
  unfold run in Hpure.
  bind_step; simpl in Hpure; subst; rewrite List.app_nil_r, List.app_assoc;
    reflexivity.
Qed.

Lemma powerbi_answer_answers w prefix rq doc :
  answers w rq doc -> powerbi_answer prefix (w_fetch w rq) = Ok doc.
Proof.
  intros (response & Hf & Hok & Hjson). unfold powerbi_answer.
  rewrite Hf, Hok, Hjson. reflexivity.
Qed.

Lemma serve_brokering w req :
  String.eqb (Edge.req_method req) "OPTIONS" = false ->
  Edge.serve w req =
  match run (Edge.brokering w req) with
  | (Ok response, tr) => (response, tr)
  | (Throw message, tr) => (Edge.error_response w message, tr)
  end.
Proof. intros H. unfold Edge.serve. rewrite H. reflexivity. Qed.

Lemma error_response_not_200 w message :
  Edge.res_status (Edge.error_response w message) <> 200.
Proof.
  simpl. destruct (statusCode_cases message) as [H | [H | H]]; rewrite H;
    discriminate.
Qed.

(** A request that carries no bearer credential is turned away before
    anything else happens, with the message of the header check. *)
Lemma edge_bad_header_rejected w req :
  String.eqb (Edge.req_method req) "OPTIONS" = false ->
  String.prefix "Bearer "
    (or_default (Edge.req_headers req !! "authorization") EmptyString) = false ->
  Edge.serve w req =
  (Edge.error_response w "Missing or invalid Authorization header", []).
Proof.
  intros Hm Hp. rewrite (serve_brokering w req Hm), brokering_run. cbv zeta.
  rewrite verifySupabaseJWT_run. simpl str_to_string. rewrite Hp.
  rewrite orb_true_r. reflexivity.
Qed.

(** The success path of the edge function: an authenticated caller, a complete
    configuration, a grant that yields a token and two Power BI calls that
    answer lead to the success envelope around the assembled configuration. *)
Lemma edge_success_path w req claims vtr ws rep aad gtr rdoc tdoc config :
  String.eqb (Edge.req_method req) "OPTIONS" = false ->
  run (Edge.verifySupabaseJWT w
         (Some (or_default (Edge.req_headers req !! "authorization")
                  EmptyString))) = (Ok (JObj claims), vtr) ->
  Edge.env_get w "POWERBI_WORKSPACE_ID" = Some ws -> ws <> EmptyString ->
  Edge.env_get w "POWERBI_REPORT_ID" = Some rep -> rep <> EmptyString ->
  run (Edge.getAzureAccessToken w) = (Ok aad, gtr) ->
  answers w (Edge.reportRequest w aad ws rep) rdoc ->
  answers w (Edge.mintRequest w aad ws rep (assoc "sub" claims)) tdoc ->
  fst (run (Edge.embedConfig rdoc tdoc)) = Ok config ->
  Edge.serve w req =
  (Edge.success_response w config,
   (vtr ++ gtr ++ [EFetch ReportMeta (Edge.reportRequest w aad ws rep);
                   EFetch Mint (Edge.mintRequest w aad ws rep
                                  (assoc "sub" claims))])%list).
Proof.
  intros Hm Hv Hws Hws' Hrep Hrep' Hg Hr Ht Hc.
  rewrite (serve_brokering w req Hm), brokering_run. cbv zeta.
  rewrite Hv. simpl get_prop. cbv iota.
  rewrite Hws, Hrep. simpl truthy_str.
  apply String.eqb_neq in Hws', Hrep'. rewrite Hws', Hrep'. simpl.
  rewrite Hg.
  pose proof (edge_promise_all_log w aad ws rep (assoc "sub" claims)) as Hlog.
  pose proof (edge_promise_all_result w aad ws rep (assoc "sub" claims)) as Hres.
  cbv zeta in Hres.
  rewrite (powerbi_answer_answers _ _ _ _ Hr) in Hres.
  rewrite (powerbi_answer_answers _ _ _ _ Ht) in Hres.
  destruct (run (promise_all w _ _)) as [res ptr]. simpl in Hlog, Hres.
  subst res ptr. simpl fst. simpl snd. rewrite Hc. reflexivity.
Qed.

Ltac not_a_success H :=
  exfalso; injection H as <- _;
  match goal with
  | Hs : Edge.res_status (Edge.error_response _ _) = 200 |- _ =>
      exact (error_response_not_200 _ _ Hs)
  end.

(** Conversely, a success envelope is only ever produced at the end of that
    path: both Power BI calls were issued and answered. *)
Lemma edge_success_inv w req resp tr :
  String.eqb (Edge.req_method req) "OPTIONS" = false ->
  Edge.serve w req = (resp, tr) ->
  Edge.res_status resp = 200 ->
  exists aad ws rep userId rdoc tdoc config,
    In (EFetch ReportMeta (Edge.reportRequest w aad ws rep)) tr
    /\ In (EFetch Mint (Edge.mintRequest w aad ws rep userId)) tr
    /\ answers w (Edge.reportRequest w aad ws rep) rdoc
    /\ answers w (Edge.mintRequest w aad ws rep userId) tdoc
    /\ fst (run (Edge.embedConfig rdoc tdoc)) = Ok config
    /\ resp = Edge.success_response w config.
Proof.
  intros Hm Hs H200.
  rewrite (serve_brokering w req Hm), brokering_run in Hs. cbv zeta in Hs.
  destruct (run (Edge.verifySupabaseJWT w _)) as [[jwtPayload | e] vtr];
    [| not_a_success Hs].
  destruct (get_prop jwtPayload "sub") as [e | userId]; [not_a_success Hs |].
  destruct (get_prop jwtPayload "email") as [e | userEmail];
    [not_a_success Hs |].
  destruct (negb (truthy_str _) || negb (truthy_str _)); [not_a_success Hs |].
  destruct (run (Edge.getAzureAccessToken w)) as [[aad | e] gtr];
    [| not_a_success Hs].
  set (ws := str_to_string (Edge.env_get w "POWERBI_WORKSPACE_ID")) in *.
  set (rep := str_to_string (Edge.env_get w "POWERBI_REPORT_ID")) in *.
  pose proof (edge_promise_all_log w aad ws rep userId) as Hlog.
  pose proof (edge_promise_all_result w aad ws rep userId) as Hres.
  cbv zeta in Hres.
  destruct (run (promise_all w _ _)) as [[[rdoc tdoc] | e] ptr];
    [| not_a_success Hs].
  simpl in Hlog, Hres, Hs. subst ptr.
  destruct (powerbi_answer "Power BI API error (" _) as [rdoc' | ea] eqn:Ha;
    destruct (powerbi_answer "Failed to generate embed token (" _)
      as [tdoc' | eb] eqn:Hb;
    try discriminate Hres;
    try (destruct (w_first_settles_first w); discriminate Hres).
  injection Hres as <- <-.
  destruct (fst (run (Edge.embedConfig rdoc tdoc))) as [config | e] eqn:Hc;
    [| not_a_success Hs].
  injection Hs as <- <-.
  exists aad, ws, rep, userId, rdoc, tdoc, config.
  apply powerbi_answer_Ok in Ha, Hb.
  repeat split; try assumption.
  - apply List.in_or_app. right. apply List.in_or_app. right. simpl. auto.
  - apply List.in_or_app. right. apply List.in_or_app. right. simpl. auto.
Qed.


(** Whatever the request, the upstream calls of the edge function are a
    prefix of: the grant, then the metadata fetch and the mint. *)
Lemma edge_upstream_order w req :
  let calls := upstream_calls (snd (Edge.serve w req)) in
  calls = []
  \/ calls = [EFetch Grant (Edge.grantRequest w)]
  \/ exists aad ws rep userId,
       fst (run (Edge.getAzureAccessToken w)) = Ok aad
       /\ calls = [EFetch Grant (Edge.grantRequest w);
                   EFetch ReportMeta (Edge.reportRequest w aad ws rep);
                   EFetch Mint (Edge.mintRequest w aad ws rep userId)].
Proof.
  cbv zeta. unfold Edge.serve.
  destruct (String.eqb (Edge.req_method req) "OPTIONS"); [left; reflexivity |].
  rewrite brokering_run. cbv zeta.
  pose proof (verifySupabaseJWT_local w
    (Some (or_default (Edge.req_headers req !! "authorization")
             EmptyString))) as Hl.
  destruct (run (Edge.verifySupabaseJWT w _)) as [[jwtPayload | e] vtr];
    simpl in Hl; [| left; exact Hl].
  destruct (get_prop jwtPayload "sub") as [e | userId]; [left; exact Hl |].
  destruct (get_prop jwtPayload "email") as [e | userEmail];
    [left; exact Hl |].
  destruct (negb (truthy_str _) || negb (truthy_str _)); [left; exact Hl |].
  pose proof (getAzureAccessToken_run w) as Hg.
  destruct (negb (truthy_str (Edge.env_get w "AZURE_CLIENT_ID"))
            || negb (truthy_str (Edge.env_get w "AZURE_CLIENT_SECRET"))
            || negb (truthy_str (Edge.env_get w "AZURE_TENANT_ID"))).
  { rewrite Hg. left. simpl. rewrite List.app_nil_r. exact Hl. }
  destruct (run (Edge.getAzureAccessToken w)) as [[aad | e] gtr].
  2:{ right. left. injection Hg as _ ->. simpl.
      rewrite upstream_calls_app, Hl. reflexivity. }
  injection Hg as _ ->.
  set (ws := str_to_string (Edge.env_get w "POWERBI_WORKSPACE_ID")) in *.
  set (rep := str_to_string (Edge.env_get w "POWERBI_REPORT_ID")) in *.
  pose proof (edge_promise_all_log w aad ws rep userId) as Hlog.
  right. right. exists aad, ws, rep, userId. split; [reflexivity |].
  destruct (run (promise_all w _ _)) as [[both | e] ptr]; simpl in Hlog;
    subst ptr.
  - destruct (fst (run (Edge.embedConfig (fst both) (snd both))));
      simpl; rewrite upstream_calls_app, Hl; reflexivity.
  - simpl. rewrite upstream_calls_app, Hl. reflexivity.
Qed.

(** When Azure AD does not answer the grant with a success, the edge function
    answers with a failure envelope and Power BI is never called. *)
Lemma edge_grant_failure w req :
  String.eqb (Edge.req_method req) "OPTIONS" = false ->
  (forall response, w_fetch w (Edge.grantRequest w) = inr response ->
                    resp_ok response = false) ->
  (exists message,
     fst (Edge.serve w req) = Edge.error_response w message)
  /\ (upstream_calls (snd (Edge.serve w req)) = []
      \/ upstream_calls (snd (Edge.serve w req))
         = [EFetch Grant (Edge.grantRequest w)]).
Proof.
  intros Hm Hfail.
  assert (Hno : forall aad, fst (run (Edge.getAzureAccessToken w)) <> Ok aad).
  { intros aad. rewrite getAzureAccessToken_run.
    destruct (negb _ || negb _ || negb _); [discriminate |]. simpl.
    destruct (w_fetch w (Edge.grantRequest w)) as [e | response];
      [discriminate |].
    rewrite (Hfail response eq_refl). discriminate. }
  split.
  - rewrite (serve_brokering w req Hm), brokering_run. cbv zeta.
    destruct (run (Edge.verifySupabaseJWT w _)) as [[jwtPayload | e] vtr];
      [| eexists; reflexivity].
    destruct (get_prop jwtPayload "sub") as [e | userId];
      [eexists; reflexivity |].
    destruct (get_prop jwtPayload "email") as [e | userEmail];
      [eexists; reflexivity |].
    destruct (negb (truthy_str _) || negb (truthy_str _));
      [eexists; reflexivity |].
    destruct (run (Edge.getAzureAccessToken w)) as [[aad | e] gtr];
      [| eexists; reflexivity].
    exfalso. exact (Hno aad eq_refl).
  - destruct (edge_upstream_order w req) as [H | [H | H]]; auto.
    destruct H as (aad & _ & _ & _ & Hok & _).
    exfalso. exact (Hno aad Hok).
Qed.

(** ** The Express service, step by step *)

Lemma extends_getAccessToken w : extends (TokenApi.getAccessToken w).
Proof. unfold TokenApi.getAccessToken. extends_all. Qed.

Lemma extends_generateEmbedToken w tok rid wid :
  extends (TokenApi.generateEmbedToken w tok rid wid).
Proof. unfold TokenApi.generateEmbedToken. extends_all. Qed.

Lemma extends_getReportDetails w tok rid wid :
  extends (TokenApi.getReportDetails w tok rid wid).
Proof. unfold TokenApi.getReportDetails. extends_all. Qed.

Lemma extends_api_embedConfig r t : extends (TokenApi.embedConfig r t).
Proof. unfold TokenApi.embedConfig. extends_all. Qed.

#[export] Hint Resolve extends_getAccessToken extends_generateEmbedToken
  extends_getReportDetails extends_api_embedConfig : extends.

Lemma getAccessToken_run w :
  run (TokenApi.getAccessToken w) =
  (match w_msal w [TokenApi.powerbi_scope (TokenApi.config w)] with
   | inl e => Throw ("Authentication failed: " +:+ e)
   | inr response =>
       if negb (truthy_str response)
       then Throw "Authentication failed: Failed to acquire access token"
       else Ok (str_to_string response)
   end, [EMsal [TokenApi.powerbi_scope (TokenApi.config w)]]).
Proof.
  unfold run, TokenApi.getAccessToken, try_catch, bind, emit, lift, throw, ret.
  simpl.
  destruct (w_msal w _) as [e | response]; [reflexivity |].
  destruct (negb (truthy_str response)); reflexivity.
Qed.

Lemma getReportDetails_run w tok rid wid :
  run (TokenApi.getReportDetails w tok rid wid) =
  (powerbi_answer "Power BI API error ("
     (w_fetch w (TokenApi.reportRequest w tok rid wid)),
   [EFetch ReportMeta (TokenApi.reportRequest w tok rid wid)]).
Proof.
  unfold run, TokenApi.getReportDetails, powerbi_answer.
  unfold bind. rewrite fetch_run.
  destruct (w_fetch w _) as [e | response]; [reflexivity |].
  destruct (negb (resp_ok response)); [reflexivity |].
  rewrite lift_run. destruct (resp_json response); reflexivity.
Qed.

Lemma generateEmbedToken_run w tok rid wid :
  run (TokenApi.generateEmbedToken w tok rid wid) =
  if negb (truthy (TokenApi.targetReportId w rid))
     || negb (truthy (TokenApi.targetWorkspaceId w wid))
  then (Throw "Report ID and Workspace ID are required", [])
  else
    (powerbi_answer "Power BI API error ("
       (w_fetch w (TokenApi.mintRequest w tok rid wid)),
     [EFetch Mint (TokenApi.mintRequest w tok rid wid)]).
Proof.
  unfold run, TokenApi.generateEmbedToken, powerbi_answer.
  destruct (negb _ || negb _); [reflexivity |].
  unfold bind. rewrite fetch_run.
  destruct (w_fetch w _) as [e | response]; [reflexivity |].
  destruct (negb (resp_ok response)); [reflexivity |].
  rewrite lift_run. destruct (resp_json response); reflexivity.
Qed.

(** The two Power BI calls of [getEmbedConfig] under [Promise.all]. *)
Lemma api_promise_all_run w tok rid wid :
  run (promise_all w (TokenApi.getReportDetails w tok rid wid)
         (TokenApi.generateEmbedToken w tok rid wid)) =
  let a := powerbi_answer "Power BI API error ("
             (w_fetch w (TokenApi.reportRequest w tok rid wid)) in
  let b := powerbi_answer "Power BI API error ("
             (w_fetch w (TokenApi.mintRequest w tok rid wid)) in
  let report := EFetch ReportMeta (TokenApi.reportRequest w tok rid wid) in
  let mint := EFetch Mint (TokenApi.mintRequest w tok rid wid) in
  if negb (truthy (TokenApi.targetReportId w rid))
     || negb (truthy (TokenApi.targetWorkspaceId w wid))
  then (Throw "Report ID and Workspace ID are required", [report])
  else
    (match a, b with
     | Ok r, Ok t => Ok (r, t)
     | Throw e, Ok _ => Throw e
     | Ok _, Throw e => Throw e
     | Throw ea, Throw eb =>
         if w_first_settles_first w then Throw ea else Throw eb
     end, [report; mint]).
Proof.
  cbv zeta. unfold run, promise_all.
  pose proof (getReportDetails_run w tok rid wid) as Ha.
  unfold run in Ha. rewrite Ha.
  rewrite (extends_generateEmbedToken w tok rid wid _).
  pose proof (generateEmbedToken_run w tok rid wid) as Hb.
  unfold run in Hb. rewrite Hb.
  destruct (negb _ || negb _); simpl.
  - destruct (powerbi_answer _ _); reflexivity.
  - destruct (powerbi_answer _ _), (powerbi_answer _ _); simpl;
      try reflexivity.
    destruct (w_first_settles_first w); reflexivity.
Qed.

Lemma api_embedConfig_pure r t : snd (run (TokenApi.embedConfig r t)) = [].
Proof.
  unfold run, TokenApi.embedConfig, bind, lift, throw, ret.
  destruct (get_prop r "id"); [reflexivity |].
  destruct (get_prop r "embedUrl"); [reflexivity |].
  destruct (get_prop t "token"); [reflexivity |].
  destruct (get_prop t "tokenId"); [reflexivity |].
  destruct (get_prop t "expiration"); reflexivity.
Qed.

(** [getEmbedConfig], step by step from the empty log. *)
Lemma getEmbedConfig_run w rid wid :
  run (TokenApi.getEmbedConfig w rid wid) =
  match run (TokenApi.getAccessToken w) with
  | (Throw e, gtr) => (Throw e, gtr)
  | (Ok accessToken, gtr) =>
      match run (promise_all w
                   (TokenApi.getReportDetails w accessToken rid wid)
                   (TokenApi.generateEmbedToken w accessToken rid wid)) with
      | (Throw e, ptr) => (Throw e, (gtr ++ ptr)%list)
      | (Ok both, ptr) =>
          (fst (run (TokenApi.embedConfig (fst both) (snd both))),
           (gtr ++ ptr)%list)
      end
  end.
Proof.
  unfold run, TokenApi.getEmbedConfig.
  bind_step; [| reflexivity]. simpl.
  bind_step; [| reflexivity].
  pose proof (api_embedConfig_pure (fst r0) (snd r0)) as Hpure.
  unfold run in Hpure.
  rewrite (extends_api_embedConfig (fst r0) (snd r0) _).
  rewrite Hpure, List.app_nil_r. reflexivity.
Qed.

(** [router.get('/config')] in terms of [getEmbedConfig]. *)
Lemma get_config_run w req :
  TokenApi.get_config w req =
  match run (TokenApi.getEmbedConfig w (assoc "reportId" (TokenApi.req_query req))
               (assoc "workspaceId" (TokenApi.req_query req))) with
  | (Ok embedConfig, tr) =>
      ({| TokenApi.res_status := 200;
          TokenApi.res_body := JObj [("success", JBool true);
                                     ("data", embedConfig);
                                     ("timestamp", JStr (w_now w))] |}, tr)
  | (Throw message, tr) => (TokenApi.failure w message, tr)
  end.
Proof.
  unfold TokenApi.get_config, TokenApi.respond, run, bind, ret. cbv zeta.
  destruct (TokenApi.getEmbedConfig w _ _ []) as [[embedConfig | e] tr];
    reflexivity.
Qed.


(** Conversely, status 200 is only reached at the end of that path. *)
Lemma api_success_inv w req resp tr :
  TokenApi.get_config w req = (resp, tr) ->
  TokenApi.res_status resp = 200 ->
  exists aad rdoc tdoc config,
    let rid := assoc "reportId" (TokenApi.req_query req) in
    let wid := assoc "workspaceId" (TokenApi.req_query req) in
    In (EFetch Mint (TokenApi.mintRequest w aad rid wid)) tr
    /\ answers w (TokenApi.reportRequest w aad rid wid) rdoc
    /\ answers w (TokenApi.mintRequest w aad rid wid) tdoc
    /\ fst (run (TokenApi.embedConfig rdoc tdoc)) = Ok config
    /\ TokenApi.res_body resp = JObj [("success", JBool true);
                                      ("data", config);
                                      ("timestamp", JStr (w_now w))].
Proof.
  intros Hs H200.
  rewrite get_config_run, getEmbedConfig_run in Hs.
  destruct (run (TokenApi.getAccessToken w)) as [[aad | e] gtr].
  2:{ injection Hs as <- _. discriminate H200. }
  rewrite api_promise_all_run in Hs. cbv zeta in Hs.
  destruct (negb _ || negb _).
  { injection Hs as <- _. discriminate H200. }
  destruct (powerbi_answer "Power BI API error ("
              (w_fetch w (TokenApi.reportRequest w aad _ _)))
    as [rdoc | ea] eqn:Ha;
    destruct (powerbi_answer "Power BI API error ("
                (w_fetch w (TokenApi.mintRequest w aad _ _)))
      as [tdoc | eb] eqn:Hb;
    try (injection Hs as <- _; discriminate H200);
    try (destruct (w_first_settles_first w); injection Hs as <- _;
         discriminate H200).
  simpl fst in Hs. simpl snd in Hs.
  destruct (fst (run (TokenApi.embedConfig rdoc tdoc))) as [config | e] eqn:Hc.
  2:{ injection Hs as <- _. discriminate H200. }
  injection Hs as <- <-.
  exists aad, rdoc, tdoc, config. cbv zeta.
  apply powerbi_answer_Ok in Ha, Hb.
  repeat split; try assumption.
  apply List.in_or_app. right. simpl. auto.
Qed.


(** Reading a field back from an assembled configuration. *)
Lemma assembled_expiration (id embedUrl token tokenId expiration : jsval) :
  assoc "expiration"
    (object [("type", Some (JStr "report"));
             ("id", id);
             ("embedUrl", embedUrl);
             ("accessToken", token);
             ("tokenId", tokenId);
             ("expiration", expiration);
             ("settings", Some default_settings)]) = expiration.
Proof.
  destruct id, embedUrl, token, tokenId, expiration; reflexivity.
Qed.

Lemma edge_embedConfig_expiration rdoc tdoc config :
  fst (run (Edge.embedConfig rdoc tdoc)) = Ok config ->
  get_prop config "expiration" = get_prop tdoc "expiration".
Proof.
  unfold run, Edge.embedConfig, bind, lift, throw, ret.
  destruct (get_prop rdoc "id"); [discriminate |].
  destruct (get_prop rdoc "embedUrl"); [discriminate |].
  destruct (get_prop tdoc "token"); [discriminate |].
  destruct (get_prop tdoc "tokenId"); [discriminate |].
  destruct (get_prop tdoc "expiration") as [e | expiration]; [discriminate |].
  intros H. cbv beta iota delta [fst] in H. injection H as <-.
  unfold get_prop. f_equal. apply assembled_expiration.
Qed.

Lemma api_embedConfig_expiration rdoc tdoc config :
  fst (run (TokenApi.embedConfig rdoc tdoc)) = Ok config ->
  get_prop config "expiration" = get_prop tdoc "expiration".
Proof.
  unfold run, TokenApi.embedConfig, bind, lift, throw, ret.
  destruct (get_prop rdoc "id"); [discriminate |].
  destruct (get_prop rdoc "embedUrl"); [discriminate |].
  destruct (get_prop tdoc "token"); [discriminate |].
  destruct (get_prop tdoc "tokenId"); [discriminate |].
  destruct (get_prop tdoc "expiration") as [e | expiration]; [discriminate |].
  intros H. cbv beta iota delta [fst] in H. injection H as <-.
  unfold get_prop. f_equal. apply assembled_expiration.
Qed.

(** ** The validating revision of the mint *)



(** ** The order of the steps *)

(** A caller who is not authenticated causes no upstream call. *)
Lemma edge_auth_failure w req e vtr :
  String.eqb (Edge.req_method req) "OPTIONS" = false ->
  run (Edge.verifySupabaseJWT w
         (Some (or_default (Edge.req_headers req !! "authorization")
                  EmptyString))) = (Throw e, vtr) ->
  Edge.serve w req = (Edge.error_response w e, vtr)
  /\ upstream_calls vtr = [].
Proof.
  intros Hm Hv. split.
  - rewrite (serve_brokering w req Hm), brokering_run. cbv zeta.
    rewrite Hv. reflexivity.
  - pose proof (verifySupabaseJWT_local w
      (Some (or_default (Edge.req_headers req !! "authorization")
               EmptyString))) as Hl.
    rewrite Hv in Hl. exact Hl.
Qed.

(** A token that every attempt rejects is answered with status 401. *)
Lemma edge_rejected_token_401 w req vtr :
  String.eqb (Edge.req_method req) "OPTIONS" = false ->
  run (Edge.verifySupabaseJWT w
         (Some (or_default (Edge.req_headers req !! "authorization")
                  EmptyString))) = (Throw "Invalid or expired token", vtr) ->
  Edge.res_status (fst (Edge.serve w req)) = 401.
Proof.
  intros Hm Hv.
  destruct (edge_auth_failure w req _ vtr Hm Hv) as [Hs _].
  rewrite Hs. reflexivity.
Qed.

(** In the Express service a failed grant ends the request with status 500,
    before any Power BI call. *)
Lemma api_grant_failure w req :
  (forall aad, w_msal w [TokenApi.powerbi_scope (TokenApi.config w)]
               = inr (Some aad) -> aad = EmptyString) ->
  TokenApi.res_status (fst (TokenApi.get_config w req)) = 500
  /\ snd (TokenApi.get_config w req)
     = [EMsal [TokenApi.powerbi_scope (TokenApi.config w)]].
Proof.
  intros Hfail.
  rewrite get_config_run, getEmbedConfig_run, getAccessToken_run.
  destruct (w_msal w _) as [e | [aad |]] eqn:Hmsal.
  - split; reflexivity.
  - rewrite (Hfail aad eq_refl). split; reflexivity.
  - split; reflexivity.
Qed.

(** * The claims *)

(** C1.  The claim asks for status 401 when the Authorization header is
    missing or malformed.  In the edge function the message of the header check
    starts with the word the status mapping reserves for configuration
    errors: a GET without the header, and one with a Basic credential, are
    both answered with status 400.  No collaborator is called on the way. *)
Theorem C1_missing_authorization_answered_400 :
  Edge.serve Mock.healthy (Mock.edge_request "GET" None) =
    (Edge.error_response Mock.healthy "Missing or invalid Authorization header",
     [])
  /\ Edge.serve Mock.healthy (Mock.edge_request "GET" (Some "Basic dXNlcg==")) =
    (Edge.error_response Mock.healthy "Missing or invalid Authorization header",
     [])
  /\ Edge.res_status
       (Edge.error_response Mock.healthy
          "Missing or invalid Authorization header") = 400.
Proof.
  split; [| split].
  - apply edge_bad_header_rejected; reflexivity.
  - apply edge_bad_header_rejected; reflexivity.
  - reflexivity.
Qed.



(** C3.  The claim asks that a mint answer lacking [tokenId] fail with an
    identifiable error.  The edge function does not inspect the answer: with
    such an answer it returns status 200 and a success envelope whose
    configuration has no [tokenId].  The validating revision classifies the
    same answer as malformed. *)
Theorem C3_partial_configuration_returned :
  let w := Mock.mint_without_id in
  let req := Mock.edge_request "GET" (Some "Bearer good") in
  EdgeValidated.malformed Mock.token_doc_without_id = true
  /\ fst (Edge.serve w req) =
     Edge.success_response w
       (JObj [("type", JStr "report");
              ("id", JStr "r1");
              ("embedUrl", JStr "https://x");
              ("accessToken", JStr "t1");
              ("expiration", JStr "2099-01-01T00:00:00Z");
              ("settings", default_settings)])
  /\ Edge.res_status (fst (Edge.serve w req)) = 200.
Proof.
  cbv zeta. split; [reflexivity |].
  assert (H : Edge.serve Mock.mint_without_id
                (Mock.edge_request "GET" (Some "Bearer good")) =
              (Edge.success_response Mock.mint_without_id
                 (JObj [("type", JStr "report");
                        ("id", JStr "r1");
                        ("embedUrl", JStr "https://x");
                        ("accessToken", JStr "t1");
                        ("expiration", JStr "2099-01-01T00:00:00Z");
                        ("settings", default_settings)]),
               ([EVerify "good" (KeyString "c2VjcmV0")]
                ++ [EFetch Grant (Edge.grantRequest Mock.mint_without_id)]
                ++ [EFetch ReportMeta
                      (Edge.reportRequest Mock.mint_without_id
                         (Some (JStr "aad")) "ws1" "r1");
                    EFetch Mint
                      (Edge.mintRequest Mock.mint_without_id
                         (Some (JStr "aad")) "ws1" "r1"
                         (assoc "sub" [("sub", JStr "user-1");
                                       ("email", JStr "user@example.org")]))])%list)).
  { apply (edge_success_path Mock.mint_without_id _ _ _ "ws1" "r1"
             (Some (JStr "aad")) _ Mock.report_doc Mock.token_doc_without_id);
      try reflexivity; try discriminate.
    - eexists. repeat split; reflexivity.
    - eexists. repeat split; reflexivity. }
  rewrite H. split; reflexivity.
Qed.



(** C5, as the code has it.  With a bearer header and a signing secret in the
    environment, [verifySupabaseJWT] first decodes the secret and rejects when
    that fails; it then hands the token to [verify] with the secret as a
    string, with the decoded bytes, and with a key imported from those bytes,
    in that order, stops at the first attempt that succeeds and returns its
    payload; it rejects, with "Invalid or expired token", only when no attempt
    succeeds. *)
Theorem C5_verification_falls_back w (token secret : string) :
  Edge.env_get w "_SUPABASE_JWT_SECRET" = Some secret ->
  secret <> EmptyString ->
  run (Edge.verifySupabaseJWT w (Some ("Bearer " +:+ token))) =
  match w_base64_decode w secret with
  | inl _ => (Throw "Invalid or expired token", [])
  | inr raw =>
      let first := EVerify token (KeyString secret) in
      let second := EVerify token (KeyBytes raw) in
      match w_verify w token (KeyString secret) with
      | inr payload => (Ok payload, [first])
      | inl _ =>
          match w_verify w token (KeyBytes raw) with
          | inr payload => (Ok payload, [first; second])
          | inl _ =>
              match w_import_key w raw with
              | inl _ => (Throw "Invalid or expired token", [first; second])
              | inr key =>
                  let third := EVerify token (KeyCrypto key) in
                  match w_verify w token (KeyCrypto key) with
                  | inr payload => (Ok payload, [first; second; third])
                  | inl _ => (Throw "Invalid or expired token",
                              [first; second; third])
                  end
              end
          end
      end
  end.
Proof.
  intros Hsecret Hne.
  rewrite verifySupabaseJWT_run. rewrite Hsecret.
  apply String.eqb_neq in Hne.
  simpl. rewrite Hne. simpl.
  destruct token; reflexivity.
Qed.

Lemma C5_verification_falls_back_witness :
  run (Edge.verifySupabaseJWT Mock.bytes_only (Some "Bearer good")) =
  (Ok Mock.claims,
   [EVerify "good" (KeyString "c2VjcmV0");
    EVerify "good" (KeyBytes Mock.secret_bytes)]).
Proof.
  change (Some "Bearer good") with (Some ("Bearer " +:+ "good")).
  rewrite (C5_verification_falls_back Mock.bytes_only "good" "c2VjcmV0").
  - reflexivity.
  - reflexivity.
  - discriminate.
Defined.

(** C5, as the claim states it, fails: a token that [verify] rejects under the
    string form of the secret is accepted all the same, by a second call to
    [verify] with another encoding of the same secret. *)
Lemma C5_single_verification_counterexample :
  w_verify Mock.bytes_only "good" (KeyString "c2VjcmV0")
    = inl "Key must be a CryptoKey"
  /\ fst (run (Edge.verifySupabaseJWT Mock.bytes_only (Some "Bearer good")))
     = Ok Mock.claims
  /\ length (List.filter is_verify
               (snd (run (Edge.verifySupabaseJWT Mock.bytes_only
                            (Some "Bearer good"))))) = 2.
Proof. repeat split; reflexivity. Qed.

(** C6.  The claim asks for status 401 or 500 when Azure AD refuses the grant.
    The edge function puts the text of Azure AD's answer into the error
    message and then picks the status by searching that message: a refusal
    whose text contains the word "Missing" is answered with status 400.
    The order of the steps holds here as everywhere: the grant is the only
    upstream call that was made. *)
Theorem C6_grant_refusal_answered_400 :
  let w := Mock.grant_refused 400 "Missing client credentials" in
  let req := Mock.edge_request "GET" (Some "Bearer good") in
  fst (Edge.serve w req) =
    Edge.error_response w
      "Failed to acquire Azure AD token: 400 Missing client credentials"
  /\ Edge.res_status (fst (Edge.serve w req)) = 400
  /\ upstream_calls (snd (Edge.serve w req)) =
     [EFetch Grant (Edge.grantRequest w)].
Proof. cbv zeta. repeat split; reflexivity. Qed.

(** C8.  When a user id is supplied (a truthy value, the test of
    [if (userId)]), the body of the GenerateToken request of the edge
    function, the one request [generatePowerBIEmbedToken] issues, carries
    [identities] with the single entry
    [{username: userId, roles: [], datasets: []}]; when none is supplied
    ([undefined], or a falsy value such as the empty string) it carries
    [accessLevel] and [allowSaveAs] only, as does every GenerateToken request
    of the Express service, which takes no user id. *)
Theorem C8_identities_follow_user_id :
  (forall w tok ws rep (userId : json),
     truthy (Some userId) = true ->
     snd (run (Edge.generatePowerBIEmbedToken w tok ws rep (Some userId))) =
       [EFetch Mint (Edge.mintRequest w tok ws rep (Some userId))]
     /\ fr_body (Edge.mintRequest w tok ws rep (Some userId)) =
        JsonBody
          (JObj [("accessLevel", JStr "View");
                 ("allowSaveAs", JBool false);
                 ("identities",
                  JArr [JObj [("username", userId);
                              ("roles", JArr []);
                              ("datasets", JArr [])]])]))
  /\ (forall w tok ws rep (userId : jsval),
        truthy userId = false ->
        snd (run (Edge.generatePowerBIEmbedToken w tok ws rep userId)) =
          [EFetch Mint (Edge.mintRequest w tok ws rep userId)]
        /\ fr_body (Edge.mintRequest w tok ws rep userId) =
           JsonBody (JObj [("accessLevel", JStr "View");
                           ("allowSaveAs", JBool false)]))
  /\ (forall w tok rid wid,
        fr_body (TokenApi.mintRequest w tok rid wid) =
        JsonBody (JObj [("accessLevel", JStr "View");
                        ("allowSaveAs", JBool false)])).
Proof.
  split; [| split].
  - intros w tok ws rep userId Htruthy. split.
    + rewrite generatePowerBIEmbedToken_run. reflexivity.
    + unfold Edge.mintRequest. cbv beta iota zeta delta [fr_body].
      unfold Edge.mintRequestBody. rewrite Htruthy. reflexivity.
  - intros w tok ws rep userId Hf. split.
    + rewrite generatePowerBIEmbedToken_run. reflexivity.
    + unfold Edge.mintRequest. cbv beta iota zeta delta [fr_body].
      unfold Edge.mintRequestBody. rewrite Hf. reflexivity.
  - intros w tok rid wid. reflexivity.
Qed.

Lemma C8_identities_follow_user_id_witness :
  fr_body (Edge.mintRequest Mock.healthy (Some (JStr "aad")) "ws1" "r1"
             (Some (JStr "user-1"))) =
  JsonBody
    (JObj [("accessLevel", JStr "View");
           ("allowSaveAs", JBool false);
           ("identities",
            JArr [JObj [("username", JStr "user-1");
                        ("roles", JArr []);
                        ("datasets", JArr [])]])]).
Proof.
  apply (proj1 C8_identities_follow_user_id Mock.healthy
           (Some (JStr "aad")) "ws1" "r1" (JStr "user-1")).
  reflexivity.
Defined.




(** C10.  In every success envelope, of the edge function and of
    [GET /api/embed/config], the [expiration] of the configuration is the
    [expiration] of the document with which Power BI answered the mint
    request of that call. *)
Theorem C10_expiration_is_upstream :
  (forall w req resp tr,
     String.eqb (Edge.req_method req) "OPTIONS" = false ->
     Edge.serve w req = (resp, tr) ->
     Edge.res_status resp = 200 ->
     exists rq tdoc config,
       In (EFetch Mint rq) tr
       /\ answers w rq tdoc
       /\ resp = Edge.success_response w config
       /\ get_prop config "expiration" = get_prop tdoc "expiration")
  /\ (forall w (req : TokenApi.Request) resp tr,
        TokenApi.get_config w req = (resp, tr) ->
        TokenApi.res_status resp = 200 ->
        exists rq tdoc config,
          In (EFetch Mint rq) tr
          /\ answers w rq tdoc
          /\ TokenApi.res_body resp = JObj [("success", JBool true);
                                            ("data", config);
                                            ("timestamp", JStr (w_now w))]
          /\ get_prop config "expiration" = get_prop tdoc "expiration").
Proof.
  split.
  - intros w req resp tr Hm Hs H200.
    destruct (edge_success_inv w req resp tr Hm Hs H200)
      as (aad & ws & rep & userId & rdoc & tdoc & config
          & _ & Hin & _ & Ht & Hc & Hresp).
    exists (Edge.mintRequest w aad ws rep userId), tdoc, config.
    repeat split; try assumption.
    exact (edge_embedConfig_expiration rdoc tdoc config Hc).
  - intros w req resp tr Hs H200.
    destruct (api_success_inv w req resp tr Hs H200)
      as (aad & rdoc & tdoc & config & Hin & _ & Ht & Hc & Hbody).
    eexists _, tdoc, config.
    repeat split; try eassumption.
    exact (api_embedConfig_expiration rdoc tdoc config Hc).
Qed.

Lemma C10_expiration_is_upstream_witness :
  exists rq tdoc config,
    In (EFetch Mint rq)
       (snd (Edge.serve Mock.healthy
               (Mock.edge_request "GET" (Some "Bearer good"))))
    /\ answers Mock.healthy rq tdoc
    /\ fst (Edge.serve Mock.healthy
              (Mock.edge_request "GET" (Some "Bearer good")))
       = Edge.success_response Mock.healthy config
    /\ get_prop config "expiration" = get_prop tdoc "expiration".
Proof.
  apply (proj1 C10_expiration_is_upstream Mock.healthy
           (Mock.edge_request "GET" (Some "Bearer good"))).
  - reflexivity.
  - reflexivity.
  - reflexivity.
Defined.

(** * Further properties of the edge function *)

Lemma not_upstream_in tr e :
  upstream_calls tr = [] -> In e tr -> is_upstream e = false.
Proof.
  intros Hnone Hin. destruct (is_upstream e) eqn:He; [| reflexivity].
  assert (Hf : In e (upstream_calls tr))
    by (apply List.filter_In; split; assumption).
  rewrite Hnone in Hf. destruct Hf.
Qed.

(** The log of a request, in full: the verification attempts, then nothing,
    or the grant, or the grant and the two Power BI requests built from the
    token of the grant, the configured ids and the [sub] of the verified
    payload. *)
Lemma edge_log_shape w req :
  String.eqb (Edge.req_method req) "OPTIONS" = false ->
  let hdr := Some (or_default (Edge.req_headers req !! "authorization")
                     EmptyString) in
  let ws := str_to_string (Edge.env_get w "POWERBI_WORKSPACE_ID") in
  let rep := str_to_string (Edge.env_get w "POWERBI_REPORT_ID") in
  exists res vtr,
    run (Edge.verifySupabaseJWT w hdr) = (res, vtr)
    /\ (snd (Edge.serve w req) = vtr
        \/ snd (Edge.serve w req)
           = (vtr ++ [EFetch Grant (Edge.grantRequest w)])%list
        \/ exists payload userId aad,
             res = Ok payload
             /\ get_prop payload "sub" = inr userId
             /\ fst (run (Edge.getAzureAccessToken w)) = Ok aad
             /\ snd (Edge.serve w req)
                = (vtr ++ [EFetch Grant (Edge.grantRequest w);
                           EFetch ReportMeta (Edge.reportRequest w aad ws rep);
                           EFetch Mint (Edge.mintRequest w aad ws rep userId)])%list).
Proof.
  intros Hm. cbv zeta.
  rewrite (serve_brokering w req Hm), brokering_run. cbv zeta.
  destruct (run (Edge.verifySupabaseJWT w _)) as [[jwtPayload | e] vtr].
  2:{ exists (Throw e), vtr. split; [reflexivity | left; reflexivity]. }
  exists (Ok jwtPayload), vtr. split; [reflexivity |].
  destruct (get_prop jwtPayload "sub") as [e | userId] eqn:Hsub;
    [left; reflexivity |].
  destruct (get_prop jwtPayload "email") as [e | userEmail];
    [left; reflexivity |].
  destruct (negb (truthy_str _) || negb (truthy_str _)); [left; reflexivity |].
  pose proof (getAzureAccessToken_run w) as Hg.
  destruct (negb (truthy_str (Edge.env_get w "AZURE_CLIENT_ID"))
            || negb (truthy_str (Edge.env_get w "AZURE_CLIENT_SECRET"))
            || negb (truthy_str (Edge.env_get w "AZURE_TENANT_ID"))).
  { rewrite Hg. left. simpl. rewrite List.app_nil_r. reflexivity. }
  destruct (run (Edge.getAzureAccessToken w)) as [[aad | e] gtr].
  2:{ right. left. injection Hg as _ ->. reflexivity. }
  injection Hg as _ ->.
  set (ws := str_to_string (Edge.env_get w "POWERBI_WORKSPACE_ID")) in *.
  set (rep := str_to_string (Edge.env_get w "POWERBI_REPORT_ID")) in *.
  pose proof (edge_promise_all_log w aad ws rep userId) as Hlog.
  right. right. exists jwtPayload, userId, aad.
  repeat split; try reflexivity; try exact Hsub.
  destruct (run (promise_all w _ _)) as [[both | e] ptr]; simpl in Hlog;
    subst ptr.
  - destruct (fst (run (Edge.embedConfig (fst both) (snd both))));
      reflexivity.
  - reflexivity.
Qed.

(** Every response of the edge function is the pre-flight answer, a success
    envelope or a failure envelope. *)
Lemma edge_response_shape w req :
  (String.eqb (Edge.req_method req) "OPTIONS" = true
   /\ fst (Edge.serve w req) =
      {| Edge.res_status := 200; Edge.res_headers := Edge.corsHeaders;
         Edge.res_body := None |})
  \/ (exists config, fst (Edge.serve w req) = Edge.success_response w config)
  \/ (exists message, fst (Edge.serve w req) = Edge.error_response w message).
Proof.
  unfold Edge.serve.
  destruct (String.eqb (Edge.req_method req) "OPTIONS");
    [left; split; reflexivity | right].
  rewrite brokering_run. cbv zeta.
  destruct (run (Edge.verifySupabaseJWT w _)) as [[jwtPayload | e] vtr];
    [| right; eexists; reflexivity].
  destruct (get_prop jwtPayload "sub") as [e | userId];
    [right; eexists; reflexivity |].
  destruct (get_prop jwtPayload "email") as [e | userEmail];
    [right; eexists; reflexivity |].
  destruct (negb (truthy_str _) || negb (truthy_str _));
    [right; eexists; reflexivity |].
  destruct (run (Edge.getAzureAccessToken w)) as [[aad | e] gtr];
    [| right; eexists; reflexivity].
  destruct (run (promise_all w _ _)) as [[both | e] ptr];
    [| right; eexists; reflexivity].
  destruct (fst (run (Edge.embedConfig (fst both) (snd both))));
    [left | right]; eexists; reflexivity.
Qed.

(** X1.  Whatever the request, the upstream calls of the edge function are the
    empty list, the grant alone, or the grant followed by the metadata fetch
    and the mint, both carrying the token the grant returned: Power BI is
    never called without a token, and never before the grant. *)
Theorem X1_edge_upstream_calls_in_order w req :
  let calls := upstream_calls (snd (Edge.serve w req)) in
  calls = []
  \/ calls = [EFetch Grant (Edge.grantRequest w)]
  \/ exists aad ws rep userId,
       fst (run (Edge.getAzureAccessToken w)) = Ok aad
       /\ calls = [EFetch Grant (Edge.grantRequest w);
                   EFetch ReportMeta (Edge.reportRequest w aad ws rep);
                   EFetch Mint (Edge.mintRequest w aad ws rep userId)].
Proof. exact (edge_upstream_order w req). Qed.

(** X2.  Every response of the edge function, pre-flight, success and failure
    alike, carries the three CORS headers. *)
Theorem X2_edge_cors_on_every_response w req header :
  In header Edge.corsHeaders ->
  In header (Edge.res_headers (fst (Edge.serve w req))).
Proof.
  intros Hin.
  destruct (edge_response_shape w req) as [[_ H] | [[config H] | [message H]]];
    rewrite H; simpl Edge.res_headers.
  - exact Hin.
  - unfold Edge.json_headers. apply List.in_or_app. left. exact Hin.
  - unfold Edge.json_headers. apply List.in_or_app. left. exact Hin.
Qed.

Lemma X2_edge_cors_on_every_response_witness :
  In ("Access-Control-Allow-Origin", "*")
     (Edge.res_headers
        (fst (Edge.serve Mock.healthy (Mock.edge_request "GET" None)))).
Proof.
  apply (X2_edge_cors_on_every_response Mock.healthy
           (Mock.edge_request "GET" None) ("Access-Control-Allow-Origin", "*")).
  simpl. auto.
Defined.

(** X3.  Outside pre-flight, the status and the envelope of the edge function
    agree: status 200 comes with [success: true] and a configuration, and
    every other answer has status 400, 401 or 500 and comes with
    [success: false] and an error message. *)
Theorem X3_edge_status_matches_envelope w req :
  String.eqb (Edge.req_method req) "OPTIONS" = false ->
  let response := fst (Edge.serve w req) in
  (Edge.res_status response = 200
   /\ exists config,
        Edge.res_body response =
        Some (JObj [("success", JBool true); ("data", config);
                    ("timestamp", JStr (w_now w))]))
  \/ ((Edge.res_status response = 400 \/ Edge.res_status response = 401
       \/ Edge.res_status response = 500)
      /\ exists message,
           Edge.res_body response =
           Some (JObj [("success", JBool false); ("error", JStr message);
                       ("timestamp", JStr (w_now w))])).
Proof.
  intros Hm. cbv zeta.
  destruct (edge_response_shape w req) as [[Ho _] | [[config H] | [message H]]].
  - rewrite Hm in Ho. discriminate Ho.
  - left. rewrite H. split; [reflexivity | exists config; reflexivity].
  - right. rewrite H. split.
    + destruct (statusCode_cases message) as [Hs | [Hs | Hs]]; simpl; auto.
    + exists message. reflexivity.
Qed.

Lemma X3_edge_status_matches_envelope_witness :
  Edge.res_status
    (fst (Edge.serve Mock.healthy (Mock.edge_request "GET" (Some "Bearer bad"))))
  = 401.
Proof.
  destruct (X3_edge_status_matches_envelope Mock.healthy
              (Mock.edge_request "GET" (Some "Bearer bad")) eq_refl)
    as [[H _] | [_ _]].
  - discriminate H.
  - reflexivity.
Defined.

(** X4.  With a bearer header and a configured signing secret, every way in
    which verification can fail (the secret does not decode, the key cannot be
    imported, all attempts are rejected) is answered alike: status 401, the
    fixed message "Invalid or expired token" in place of the library's own,
    and no upstream call. *)
Theorem X4_edge_rejected_token_401 w req e vtr :
  String.eqb (Edge.req_method req) "OPTIONS" = false ->
  String.prefix "Bearer "
    (or_default (Edge.req_headers req !! "authorization") EmptyString) = true ->
  truthy_str (Edge.env_get w "_SUPABASE_JWT_SECRET") = true ->
  run (Edge.verifySupabaseJWT w
         (Some (or_default (Edge.req_headers req !! "authorization")
                  EmptyString))) = (Throw e, vtr) ->
  Edge.serve w req = (Edge.error_response w "Invalid or expired token", vtr)
  /\ Edge.res_status (fst (Edge.serve w req)) = 401
  /\ upstream_calls (snd (Edge.serve w req)) = [].
Proof.
  intros Hm Hp Hsecret Hv.
  assert (He : e = "Invalid or expired token").
  { rewrite verifySupabaseJWT_run in Hv. simpl str_to_string in Hv.
    rewrite Hp in Hv.
    assert (Ht : truthy_str
                   (Some (or_default (Edge.req_headers req !! "authorization")
                            EmptyString)) = true).
    { simpl. destruct (or_default _ _); [discriminate Hp | reflexivity]. }
    rewrite Ht in Hv. simpl in Hv. rewrite Hsecret in Hv. simpl in Hv.
    repeat match type of Hv with
           | context [match ?x with inl _ => _ | inr _ => _ end] => destruct x
           end;
      try discriminate Hv; injection Hv as <- _; reflexivity. }
  subst e.
  destruct (edge_auth_failure w req _ vtr Hm Hv) as [Hs Hu].
  rewrite Hs. repeat split; try reflexivity. exact Hu.
Qed.

Lemma X4_edge_rejected_token_401_witness :
  Edge.res_status
    (fst (Edge.serve Mock.healthy (Mock.edge_request "GET" (Some "Bearer bad"))))
  = 401.
Proof.
  apply (X4_edge_rejected_token_401 Mock.healthy
           (Mock.edge_request "GET" (Some "Bearer bad"))
           "Invalid or expired token"
           [EVerify "bad" (KeyString "c2VjcmV0");
            EVerify "bad" (KeyBytes Mock.secret_bytes);
            EVerify "bad" (KeyCrypto {| ck_raw := Mock.secret_bytes |})]);
    reflexivity.
Defined.

(** X5.  When [_SUPABASE_JWT_SECRET] is absent or empty, a request with a
    bearer header is answered with status 400 and the message naming the
    variable, without the token being looked at: no call to [verify], no
    upstream call.  An environment set up under the name
    [SUPABASE_JWT_SECRET] is such an environment. *)
Theorem X5_edge_unconfigured_secret w req :
  String.eqb (Edge.req_method req) "OPTIONS" = false ->
  String.prefix "Bearer "
    (or_default (Edge.req_headers req !! "authorization") EmptyString) = true ->
  truthy_str (Edge.env_get w "_SUPABASE_JWT_SECRET") = false ->
  Edge.serve w req =
    (Edge.error_response w "Missing _SUPABASE_JWT_SECRET environment variable",
     [])
  /\ Edge.res_status (fst (Edge.serve w req)) = 400.
Proof.
  intros Hm Hp Hsecret.
  assert (Hs : Edge.serve w req =
               (Edge.error_response w
                  "Missing _SUPABASE_JWT_SECRET environment variable", [])).
  { rewrite (serve_brokering w req Hm), brokering_run. cbv zeta.
    rewrite verifySupabaseJWT_run. simpl str_to_string. rewrite Hp.
    assert (Ht : truthy_str
                   (Some (or_default (Edge.req_headers req !! "authorization")
                            EmptyString)) = true).
    { simpl. destruct (or_default _ _); [discriminate Hp | reflexivity]. }
    rewrite Ht. simpl. rewrite Hsecret. reflexivity. }
  rewrite Hs. split; reflexivity.
Qed.

Lemma X5_edge_unconfigured_secret_witness :
  Edge.serve Scenario.guide_world (Mock.edge_request "GET" (Some "Bearer good")) =
  (Edge.error_response Scenario.guide_world
     "Missing _SUPABASE_JWT_SECRET environment variable", []).
Proof.
  apply (X5_edge_unconfigured_secret Scenario.guide_world
           (Mock.edge_request "GET" (Some "Bearer good")));
    reflexivity.
Defined.

(** X6.  An authenticated request with both ids configured, in an environment
    where the client id, the client secret or the tenant id of the service
    principal is absent or empty, is answered with status 400 and
    "Missing Azure Service Principal configuration"; Azure AD is not called. *)
Theorem X6_edge_missing_service_principal w req claims vtr :
  String.eqb (Edge.req_method req) "OPTIONS" = false ->
  run (Edge.verifySupabaseJWT w
         (Some (or_default (Edge.req_headers req !! "authorization")
                  EmptyString))) = (Ok (JObj claims), vtr) ->
  truthy_str (Edge.env_get w "POWERBI_WORKSPACE_ID")
  && truthy_str (Edge.env_get w "POWERBI_REPORT_ID") = true ->
  truthy_str (Edge.env_get w "AZURE_CLIENT_ID")
  && truthy_str (Edge.env_get w "AZURE_CLIENT_SECRET")
  && truthy_str (Edge.env_get w "AZURE_TENANT_ID") = false ->
  Edge.serve w req =
    (Edge.error_response w "Missing Azure Service Principal configuration", vtr)
  /\ Edge.res_status (fst (Edge.serve w req)) = 400
  /\ upstream_calls (snd (Edge.serve w req)) = [].
Proof.
  intros Hm Hv Hids Haz.
  assert (Hs : Edge.serve w req =
               (Edge.error_response w
                  "Missing Azure Service Principal configuration", vtr)).
  { rewrite (serve_brokering w req Hm), brokering_run. cbv zeta.
    rewrite Hv. simpl get_prop. cbv iota.
    rewrite <- negb_andb, Hids. simpl negb. cbv iota.
    rewrite getAzureAccessToken_run.
    rewrite <- !negb_andb, Haz. simpl. rewrite List.app_nil_r. reflexivity. }
  rewrite Hs. repeat split.
  pose proof (verifySupabaseJWT_local w
    (Some (or_default (Edge.req_headers req !! "authorization")
             EmptyString))) as Hl.
  rewrite Hv in Hl. exact Hl.
Qed.

Lemma X6_edge_missing_service_principal_witness :
  Edge.res_status
    (fst (Edge.serve Scenario.without_azure
            (Mock.edge_request "GET" (Some "Bearer good")))) = 400.
Proof.
  apply (X6_edge_missing_service_principal Scenario.without_azure
           (Mock.edge_request "GET" (Some "Bearer good"))
           [("sub", JStr "user-1"); ("email", JStr "user@example.org")]
           [EVerify "good" (KeyString "c2VjcmV0")]);
    reflexivity.
Defined.

(** X7.  When the token endpoint rejects the request or answers it with a
    status outside 200-299, the edge function answers with a failure envelope
    and sends nothing to Power BI: its upstream calls are at most the
    grant. *)
Theorem X7_edge_failed_grant_stops w req :
  String.eqb (Edge.req_method req) "OPTIONS" = false ->
  (forall response, w_fetch w (Edge.grantRequest w) = inr response ->
                    resp_ok response = false) ->
  (exists message, fst (Edge.serve w req) = Edge.error_response w message)
  /\ (upstream_calls (snd (Edge.serve w req)) = []
      \/ upstream_calls (snd (Edge.serve w req))
         = [EFetch Grant (Edge.grantRequest w)]).
Proof. exact (edge_grant_failure w req). Qed.

Lemma X7_edge_failed_grant_stops_witness :
  upstream_calls
    (snd (Edge.serve (Mock.grant_refused 401 "denied")
            (Mock.edge_request "GET" (Some "Bearer good"))))
  = [EFetch Grant (Edge.grantRequest (Mock.grant_refused 401 "denied"))].
Proof.
  destruct (X7_edge_failed_grant_stops (Mock.grant_refused 401 "denied")
              (Mock.edge_request "GET" (Some "Bearer good")) eq_refl)
    as [_ [H | H]].
  - intros response Hf. injection Hf as <-. reflexivity.
  - discriminate H.
  - exact H.
Defined.

(** X8.  When one of the two Power BI calls is answered with a status outside
    200-299 and the other succeeds, the edge function answers with a failure
    envelope whose error is the message of the failed call, status and body
    text of Power BI's answer included: "Power BI API error (...)" for the
    metadata fetch, "Failed to generate embed token (...)" for the mint.  Both
    requests were sent. *)
Theorem X8_edge_power_bi_failure_surfaces w req claims vtr ws rep aad gtr :
  String.eqb (Edge.req_method req) "OPTIONS" = false ->
  run (Edge.verifySupabaseJWT w
         (Some (or_default (Edge.req_headers req !! "authorization")
                  EmptyString))) = (Ok (JObj claims), vtr) ->
  Edge.env_get w "POWERBI_WORKSPACE_ID" = Some ws -> ws <> EmptyString ->
  Edge.env_get w "POWERBI_REPORT_ID" = Some rep -> rep <> EmptyString ->
  run (Edge.getAzureAccessToken w) = (Ok aad, gtr) ->
  let report := Edge.reportRequest w aad ws rep in
  let mint := Edge.mintRequest w aad ws rep (assoc "sub" claims) in
  let log := (vtr ++ gtr ++ [EFetch ReportMeta report; EFetch Mint mint])%list in
  (forall response tdoc,
     w_fetch w report = inr response -> resp_ok response = false ->
     answers w mint tdoc ->
     Edge.serve w req =
     (Edge.error_response w
        ("Power BI API error (" +:+ nat_to_string (resp_status response)
         +:+ "): " +:+ resp_text response), log))
  /\ (forall response rdoc,
        w_fetch w mint = inr response -> resp_ok response = false ->
        answers w report rdoc ->
        Edge.serve w req =
        (Edge.error_response w
           ("Failed to generate embed token ("
            +:+ nat_to_string (resp_status response)
            +:+ "): " +:+ resp_text response), log)).
Proof.
  intros Hm Hv Hws Hws' Hrep Hrep' Hg. cbv zeta.
  assert (Hrun : Edge.serve w req =
                 match run (promise_all w
                              (Edge.getPowerBIReportDetails w aad ws rep)
                              (Edge.generatePowerBIEmbedToken w aad ws rep
                                 (assoc "sub" claims))) with
                 | (Throw e, ptr) =>
                     (Edge.error_response w e, (vtr ++ gtr ++ ptr)%list)
                 | (Ok both, ptr) =>
                     match fst (run (Edge.embedConfig (fst both) (snd both))) with
                     | Throw e =>
                         (Edge.error_response w e, (vtr ++ gtr ++ ptr)%list)
                     | Ok config =>
                         (Edge.success_response w config,
                          (vtr ++ gtr ++ ptr)%list)
                     end
                 end).
  { rewrite (serve_brokering w req Hm), brokering_run. cbv zeta.
    rewrite Hv. simpl get_prop. cbv iota.
    rewrite Hws, Hrep. simpl truthy_str.
    apply String.eqb_neq in Hws', Hrep'. rewrite Hws', Hrep'. simpl.
    rewrite Hg.
    destruct (run (promise_all w _ _)) as [[both | e] ptr]; [| reflexivity].
    destruct (fst (run (Edge.embedConfig (fst both) (snd both))));
      reflexivity. }
  pose proof (edge_promise_all_log w aad ws rep (assoc "sub" claims)) as Hlog.
  pose proof (edge_promise_all_result w aad ws rep (assoc "sub" claims)) as Hres.
  cbv zeta in Hres.
  split.
  - intros response tdoc Hf Hok Ht.
    rewrite (powerbi_answer_answers _ _ _ _ Ht) in Hres.
    unfold powerbi_answer at 1 in Hres. rewrite Hf, Hok in Hres.
    simpl in Hres.
    destruct (run (promise_all w _ _)) as [res ptr]. simpl in Hlog, Hres.
    subst res ptr. exact Hrun.
  - intros response rdoc Hf Hok Hr.
    rewrite (powerbi_answer_answers _ _ _ _ Hr) in Hres.
    unfold powerbi_answer in Hres. rewrite Hf, Hok in Hres.
    simpl in Hres.
    destruct (run (promise_all w _ _)) as [res ptr]. simpl in Hlog, Hres.
    subst res ptr. exact Hrun.
Qed.

Lemma X8_edge_power_bi_failure_surfaces_witness :
  fst (Edge.serve Scenario.report_not_found
         (Mock.edge_request "GET" (Some "Bearer good"))) =
  Edge.error_response Scenario.report_not_found
    "Power BI API error (404): not found".
Proof.
  rewrite (proj1 (X8_edge_power_bi_failure_surfaces Scenario.report_not_found
                    (Mock.edge_request "GET" (Some "Bearer good"))
                    [("sub", JStr "user-1"); ("email", JStr "user@example.org")]
                    [EVerify "good" (KeyString "c2VjcmV0")]
                    "ws1" "r1" (Some (JStr "aad"))
                    [EFetch Grant (Edge.grantRequest Scenario.report_not_found)]
                    eq_refl eq_refl eq_refl ltac:(discriminate)
                    eq_refl ltac:(discriminate) eq_refl)
             (Mock.failed 404 "not found") Mock.token_doc).
  - reflexivity.
  - reflexivity.
  - reflexivity.
  - eexists. repeat split; reflexivity.
Defined.

(** X9.  Every GenerateToken request the edge function sends is bound to the
    caller: it is built from the [sub] of the payload that verification
    returned for the request's own bearer token, and sent with the token the
    grant returned.  No mint is requested for an unverified caller. *)
Theorem X9_edge_mint_bound_to_subject w req rq :
  In (EFetch Mint rq) (snd (Edge.serve w req)) ->
  exists payload vtr userId aad,
    run (Edge.verifySupabaseJWT w
           (Some (or_default (Edge.req_headers req !! "authorization")
                    EmptyString))) = (Ok payload, vtr)
    /\ get_prop payload "sub" = inr userId
    /\ fst (run (Edge.getAzureAccessToken w)) = Ok aad
    /\ rq = Edge.mintRequest w aad
              (str_to_string (Edge.env_get w "POWERBI_WORKSPACE_ID"))
              (str_to_string (Edge.env_get w "POWERBI_REPORT_ID")) userId
    /\ fr_body rq = JsonBody (Edge.mintRequestBody userId).
Proof.
  intros Hin.
  destruct (String.eqb (Edge.req_method req) "OPTIONS") eqn:Hm.
  { unfold Edge.serve in Hin. rewrite Hm in Hin. destruct Hin. }
  destruct (edge_log_shape w req Hm) as (res & vtr & Hv & Hshape).
  pose proof (verifySupabaseJWT_local w
    (Some (or_default (Edge.req_headers req !! "authorization")
             EmptyString))) as Hl.
  rewrite Hv in Hl. simpl in Hl.
  assert (Hnot : ~ In (EFetch Mint rq) vtr).
  { intros H. pose proof (not_upstream_in vtr _ Hl H) as Hu. discriminate Hu. }
  destruct Hshape as [H | [H | H]].
  - rewrite H in Hin. contradiction.
  - rewrite H in Hin. apply List.in_app_or in Hin.
    destruct Hin as [Hin | [Hin | []]]; [contradiction | discriminate Hin].
  - destruct H as (payload & userId & aad & -> & Hsub & Hg & H).
    rewrite H in Hin. apply List.in_app_or in Hin.
    destruct Hin as [Hin | [Hin | [Hin | [Hin | []]]]];
      [contradiction | discriminate Hin | discriminate Hin |].
    injection Hin as <-.
    exists payload, vtr, userId, aad. repeat split; assumption || reflexivity.
Qed.

Lemma X9_edge_mint_bound_to_subject_witness :
  exists payload vtr userId aad,
    run (Edge.verifySupabaseJWT Mock.healthy (Some "Bearer good"))
    = (Ok payload, vtr)
    /\ get_prop payload "sub" = inr userId
    /\ fst (run (Edge.getAzureAccessToken Mock.healthy)) = Ok aad
    /\ Edge.mintRequest Mock.healthy (Some (JStr "aad")) "ws1" "r1"
         (Some (JStr "user-1"))
       = Edge.mintRequest Mock.healthy aad "ws1" "r1" userId
    /\ fr_body (Edge.mintRequest Mock.healthy (Some (JStr "aad")) "ws1" "r1"
                  (Some (JStr "user-1")))
       = JsonBody (Edge.mintRequestBody userId).
Proof.
  apply (X9_edge_mint_bound_to_subject Mock.healthy
           (Mock.edge_request "GET" (Some "Bearer good"))
           (Edge.mintRequest Mock.healthy (Some (JStr "aad")) "ws1" "r1"
              (Some (JStr "user-1")))).
  vm_compute. right. right. right. left. reflexivity.
Defined.

(** * Further properties of the validating mint *)





(** * Further properties of the Express service *)

Lemma extends_listReports w wid : extends (TokenApi.listReports w wid).
Proof.
  unfold TokenApi.listReports. extends_all.
  destruct a2 as [[| | | | |] |]; extends_all.
Qed.

Lemma extends_report_summary report : extends (TokenApi.report_summary report).
Proof. unfold TokenApi.report_summary. extends_all. Qed.

Lemma extends_map_reports reports : extends (TokenApi.map_reports reports).
Proof.
  induction reports as [| report rest IH]; simpl.
  - apply extends_ret.
  - apply extends_bind; [apply extends_report_summary | intros summary].
    apply extends_bind; [exact IH | intros summaries]. apply extends_ret.
Qed.

#[export] Hint Resolve extends_listReports extends_report_summary
  extends_map_reports : extends.

Lemma listReports_run w wid :
  run (TokenApi.listReports w wid) =
  match run (TokenApi.getAccessToken w) with
  | (Throw e, gtr) => (Throw e, gtr)
  | (Ok accessToken, gtr) =>
      (Service.listing_answer
         (powerbi_answer "Power BI API error ("
            (w_fetch w (Service.reportsRequest w accessToken wid))),
       (gtr ++ [EFetch ListReports
                  (Service.reportsRequest w accessToken wid)])%list)
  end.
Proof.
  unfold run, TokenApi.listReports.
  bind_step; [| reflexivity]. simpl. cbv zeta.
  fold (Service.reportsRequest w r wid).
  unfold bind at 1. rewrite fetch_run.
  unfold Service.listing_answer, powerbi_answer.
  destruct (w_fetch w _) as [e | response]; [reflexivity |].
  destruct (negb (resp_ok response)); [reflexivity |].
  unfold bind. rewrite lift_run.
  destruct (resp_json response) as [e | data]; [reflexivity |].
  rewrite lift_run.
  destruct (get_prop data "value") as [e | [[| | | | |] |]]; reflexivity.
Qed.

Lemma object_in k v fields :
  In (k, v) (object fields) -> In (k, Some v) fields.
Proof.
  induction fields as [| [k' [v' |]] rest IH]; simpl.
  - auto.
  - intros [H | H]; [left; injection H as -> ->; reflexivity | right; auto].
  - intros H. right. auto.
Qed.

Lemma report_summary_run report :
  snd (run (TokenApi.report_summary report)) = []
  /\ forall summary, fst (run (TokenApi.report_summary report)) = Ok summary ->
                     Service.summarises report summary.
Proof.
  unfold run, TokenApi.report_summary, bind, lift, throw, ret.
  destruct report as [| b | n | s | items | fields];
    cbv beta iota delta [get_prop fst snd].
  1: split; [reflexivity | discriminate].
  1-4: split; [reflexivity |]; intros summary H; injection H as <-;
       exists []; repeat split; try reflexivity; intros k v [].
  split; [reflexivity |]. intros summary H. injection H as <-.
  exists (object [("id", assoc "id" fields); ("name", assoc "name" fields);
                  ("embedUrl", assoc "embedUrl" fields);
                  ("datasetId", assoc "datasetId" fields)]).
  split; [reflexivity |]. split; [| split].
  - intros k v Hin. apply object_in in Hin. unfold Service.summary_keys.
    simpl in Hin. simpl.
    destruct Hin as [H | [H | [H | [H | []]]]]; injection H as <- _; auto.
  - unfold get_prop.
    destruct (assoc "id" fields), (assoc "name" fields),
      (assoc "embedUrl" fields), (assoc "datasetId" fields); reflexivity.
  - unfold get_prop.
    destruct (assoc "id" fields), (assoc "name" fields),
      (assoc "embedUrl" fields), (assoc "datasetId" fields); reflexivity.
Qed.

Lemma map_reports_run items :
  snd (run (TokenApi.map_reports items)) = []
  /\ forall summaries,
       fst (run (TokenApi.map_reports items)) = Ok summaries ->
       Forall2 Service.summarises items summaries.
Proof.
  induction items as [| report rest [IHlog IH]].
  - split; [reflexivity |]. intros summaries H. injection H as <-. constructor.
  - destruct (report_summary_run report) as [Hlog Hsum].
    unfold run in *. simpl TokenApi.map_reports. unfold bind.
    destruct (TokenApi.report_summary report []) as [[summary | e] tr1];
      simpl in Hlog; subst tr1; [| split; [reflexivity | discriminate]].
    destruct (TokenApi.map_reports rest []) as [[summaries | e] tr2];
      simpl in IHlog; subst tr2; [| split; [reflexivity | discriminate]].
    split; [reflexivity |]. intros all H. injection H as <-.
    constructor; [apply Hsum; reflexivity | apply IH; reflexivity].
Qed.

(** [router.get('/reports')] in terms of [listReports]. *)
Lemma get_reports_run w req :
  TokenApi.get_reports w req =
  match run (TokenApi.listReports w
               (assoc "workspaceId" (TokenApi.req_query req))) with
  | (Throw message, tr) => (TokenApi.failure w message, tr)
  | (Ok (JArr items), tr) =>
      match fst (run (TokenApi.map_reports items)) with
      | Ok summaries =>
          ({| TokenApi.res_status := 200;
              TokenApi.res_body :=
                JObj [("success", JBool true);
                      ("data", JArr summaries);
                      ("count", JNum (Z.of_nat (length items)));
                      ("timestamp", JStr (w_now w))] |}, tr)
      | Throw message => (TokenApi.failure w message, tr)
      end
  | (Ok _, tr) => (TokenApi.failure w "reports.map is not a function", tr)
  end.
Proof.
  unfold TokenApi.get_reports, TokenApi.respond, run. cbv zeta.
  unfold bind at 1.
  destruct (TokenApi.listReports w _ []) as [[reports | e] tr]; [| reflexivity].
  destruct reports as [| b | n | s | items | fields]; try reflexivity.
  unfold bind.
  rewrite (extends_map_reports items tr).
  destruct (map_reports_run items) as [Hlog _]. unfold run in Hlog.
  rewrite Hlog, List.app_nil_r.
  destruct (fst (TokenApi.map_reports items [])); reflexivity.
Qed.

(** X12.  [GET /api/embed/token] cannot succeed: the route calls
    [authService.getAccessToken()], and embedRoutes.js never binds
    [authService].  Whatever the request and the configuration, the answer is
    status 500 with "authService is not defined", and no upstream is
    called. *)
Theorem X12_api_token_route_never_succeeds w req :
  TokenApi.get_token w req =
    (TokenApi.failure w "authService is not defined", [])
  /\ TokenApi.res_status (fst (TokenApi.get_token w req)) = 500.
Proof. split; reflexivity. Qed.

(** X13.  A 200 from [GET /api/embed/reports] lists what Power BI returned
    under [value], entry by entry and in order: [count] is the number of
    reports, and each entry carries the [id] and [embedUrl] of its report and
    no key besides [id], [name], [embedUrl] and [datasetId]. *)
Theorem X13_api_reports_listing w req :
  TokenApi.res_status (fst (TokenApi.get_reports w req)) = 200 ->
  exists accessToken data items summaries,
    answers w (Service.reportsRequest w accessToken
                 (assoc "workspaceId" (TokenApi.req_query req))) data
    /\ get_prop data "value" = inr (Some (JArr items))
    /\ TokenApi.res_body (fst (TokenApi.get_reports w req)) =
       JObj [("success", JBool true);
             ("data", JArr summaries);
             ("count", JNum (Z.of_nat (length summaries)));
             ("timestamp", JStr (w_now w))]
    /\ Forall2 Service.summarises items summaries.
Proof.
  rewrite get_reports_run, listReports_run.
  destruct (run (TokenApi.getAccessToken w)) as [[accessToken | e] gtr];
    [| discriminate].
  destruct (powerbi_answer _ _) as [data | e] eqn:Ha; [| discriminate].
  unfold Service.listing_answer.
  destruct (get_prop data "value") as [e | [[| b | n | s | items | fields] |]]
    eqn:Hvalue; try discriminate.
  destruct (map_reports_run items) as [_ Hall].
  destruct (fst (run (TokenApi.map_reports items))) as [summaries | e];
    [| discriminate].
  intros _. specialize (Hall summaries eq_refl).
  exists accessToken, data, items, summaries.
  apply powerbi_answer_Ok in Ha.
  repeat split; try assumption.
  cbn [fst TokenApi.res_body].
  rewrite (Forall2_length _ _ _ Hall). reflexivity.
Qed.

Lemma X13_api_reports_listing_witness :
  exists accessToken data items summaries,
    answers Scenario.listing
      (Service.reportsRequest Scenario.listing accessToken None) data
    /\ get_prop data "value" = inr (Some (JArr items))
    /\ TokenApi.res_body
         (fst (TokenApi.get_reports Scenario.listing (Mock.api_request None [])))
       = JObj [("success", JBool true);
               ("data", JArr summaries);
               ("count", JNum (Z.of_nat (length summaries)));
               ("timestamp", JStr (w_now Scenario.listing))]
    /\ Forall2 Service.summarises items summaries.
Proof.
  apply (X13_api_reports_listing Scenario.listing (Mock.api_request None [])).
  reflexivity.
Defined.

(** X14.  The three GET routes of the Express service answer with status 200
    and [success: true], or with status 500 and the failure envelope; there is
    no third outcome. *)
Theorem X14_api_routes_200_or_500 w req :
  let outcome_of (response : TokenApi.Response) :=
    (TokenApi.res_status response = 200
     /\ get_prop (TokenApi.res_body response) "success"
        = inr (Some (JBool true)))
    \/ exists message, response = TokenApi.failure w message in
  outcome_of (fst (TokenApi.get_config w req))
  /\ outcome_of (fst (TokenApi.get_token w req))
  /\ outcome_of (fst (TokenApi.get_reports w req)).
Proof.
  cbv zeta. split; [| split].
  - rewrite get_config_run.
    destruct (run (TokenApi.getEmbedConfig w _ _)) as [[config | e] tr].
    + left. split; reflexivity.
    + right. exists e. reflexivity.
  - right. eexists. reflexivity.
  - rewrite get_reports_run.
    destruct (run (TokenApi.listReports w _))
      as [[[| b | n | s | items | fields] | e] tr];
      try (right; eexists; reflexivity).
    destruct (fst (run (TokenApi.map_reports items))).
    + left. split; reflexivity.
    + right. eexists. reflexivity.
Qed.





(** * Configuration, health and error handling of the Express service *)

Lemma truthy_of_str (s : option string) :
  truthy (TokenApi.of_str s) = truthy_str s.
Proof. destruct s; reflexivity. Qed.

(** What [validateConfig] accepts. *)
Lemma validateConfig_valid valid_url w :
  Service.isValid (Service.validateConfig valid_url w) = true ->
  truthy_str (TokenApi.azure_clientId (TokenApi.config w)) = true
  /\ truthy_str (TokenApi.azure_clientSecret (TokenApi.config w)) = true
  /\ truthy_str (TokenApi.azure_tenantId (TokenApi.config w)) = true
  /\ valid_url (TokenApi.azure_authority (TokenApi.config w)) = true
  /\ valid_url (TokenApi.powerbi_apiUrl (TokenApi.config w)) = true
  /\ Service.errors (Service.validateConfig valid_url w) = []
  /\ forall workspaceId,
       truthy (TokenApi.targetWorkspaceId w workspaceId) = true.
Proof.
  unfold Service.validateConfig. cbv zeta. cbn [Service.isValid Service.errors].
  destruct (truthy_str (TokenApi.azure_clientId _)); [| discriminate].
  destruct (truthy_str (TokenApi.azure_clientSecret _)); [| discriminate].
  destruct (truthy_str (TokenApi.azure_tenantId _)); [| discriminate].
  destruct (truthy_str (TokenApi.powerbi_workspaceId _)) eqn:Hws;
    [| discriminate].
  destruct (valid_url (TokenApi.azure_authority _)); [| discriminate].
  destruct (valid_url (TokenApi.powerbi_apiUrl _)); [| discriminate].
  intros _. repeat split.
  intros workspaceId. unfold TokenApi.targetWorkspaceId, TokenApi.or_val.
  destruct (truthy workspaceId) eqn:Hq; [exact Hq |].
  rewrite truthy_of_str. exact Hws.
Qed.


(** X17.  A configuration that [validateConfig] accepts, the condition under
    which server.js starts listening, has a client id, a client secret, a
    tenant id and a workspace id, and URLs that parse.  In a started server
    the workspace id of a request is therefore never missing, whatever the
    query string; the report id is the only id that can be. *)
Theorem X17_valid_configuration_has_workspace valid_url w :
  Service.isValid (Service.validateConfig valid_url w) = true ->
  truthy_str (TokenApi.azure_clientId (TokenApi.config w)) = true
  /\ truthy_str (TokenApi.azure_clientSecret (TokenApi.config w)) = true
  /\ truthy_str (TokenApi.azure_tenantId (TokenApi.config w)) = true
  /\ valid_url (TokenApi.azure_authority (TokenApi.config w)) = true
  /\ valid_url (TokenApi.powerbi_apiUrl (TokenApi.config w)) = true
  /\ Service.errors (Service.validateConfig valid_url w) = []
  /\ forall workspaceId,
       truthy (TokenApi.targetWorkspaceId w workspaceId) = true.
Proof. exact (validateConfig_valid valid_url w). Qed.

Lemma X17_valid_configuration_has_workspace_witness :
  truthy (TokenApi.targetWorkspaceId Mock.without_report_id None) = true.
Proof.
  apply (X17_valid_configuration_has_workspace Scenario.has_scheme
           Mock.without_report_id).
  reflexivity.
Defined.

(** X18.  The report id is advisory for [validateConfig]: setting
    [POWERBI_REPORT_ID] to any value, or removing it, changes neither the
    errors nor the verdict; only the warning depends on it. *)
Theorem X18_report_id_is_advisory valid_url w (value : string) :
  let set := Service.with_env w (<["POWERBI_REPORT_ID" := value]> (w_env w)) in
  let unset := Service.with_env w (delete "POWERBI_REPORT_ID" (w_env w)) in
  Service.errors (Service.validateConfig valid_url set)
  = Service.errors (Service.validateConfig valid_url w)
  /\ Service.errors (Service.validateConfig valid_url unset)
     = Service.errors (Service.validateConfig valid_url w)
  /\ Service.isValid (Service.validateConfig valid_url set)
     = Service.isValid (Service.validateConfig valid_url unset)
  /\ Service.warnings (Service.validateConfig valid_url unset)
     = ["POWERBI_REPORT_ID not set - will need to be provided in API calls"].
Proof.
  cbv zeta.
  unfold Service.validateConfig, TokenApi.config, Service.with_env.
  cbn [Service.errors Service.isValid Service.warnings w_env
       TokenApi.azure_clientId TokenApi.azure_clientSecret
       TokenApi.azure_tenantId TokenApi.azure_authority
       TokenApi.powerbi_workspaceId TokenApi.powerbi_reportId
       TokenApi.powerbi_apiUrl].
  rewrite !lookup_insert_ne by discriminate.
  rewrite !lookup_delete_ne by discriminate.
  rewrite lookup_delete_eq.
  repeat split.
Qed.

(** X19.  The health route answers 200 exactly when it reports both services
    ready and no configuration error; otherwise it answers 503 and reports
    one of the two services misconfigured. *)
Theorem X19_health_status_matches_services valid_url trim w :
  let response := Service.health valid_url trim w in
  let services := get_prop (TokenApi.res_body response) "services" in
  (TokenApi.res_status response = 200
   /\ services = inr (Some (JObj [("authentication", JStr "ready");
                                  ("powerbi", JStr "ready")]))
   /\ Service.errors (Service.validateConfig valid_url w) = [])
  \/ (TokenApi.res_status response = 503
      /\ exists authentication powerbi,
           services = inr (Some (JObj [("authentication", JStr authentication);
                                       ("powerbi", JStr powerbi)]))
           /\ (authentication = "misconfigured"
               \/ powerbi = "misconfigured")).
Proof.
  cbv zeta. unfold Service.health. cbv zeta.
  cbn [TokenApi.res_status TokenApi.res_body].
  destruct (Service.isValid (Service.validateConfig valid_url w)) eqn:Hv;
    destruct (Service.authValidateConfig trim w) eqn:Ha; simpl.
  - left. repeat split.
    apply (validateConfig_valid valid_url w Hv).
  - right. split; [reflexivity |]. eexists _, _. split; [reflexivity | auto].
  - right. split; [reflexivity |]. eexists _, _. split; [reflexivity | auto].
  - right. split; [reflexivity |]. eexists _, _. split; [reflexivity | auto].
Qed.

(** X20.  The health route reveals of the client secret only whether one is
    configured: two environments that differ in the value of
    [AZURE_CLIENT_SECRET] alone, both values non-blank, get the same
    response. *)
Theorem X20_health_hides_client_secret valid_url trim w (s1 s2 : string) :
  s1 <> EmptyString -> s2 <> EmptyString ->
  trim s1 <> EmptyString -> trim s2 <> EmptyString ->
  Service.health valid_url trim
    (Service.with_env w (<["AZURE_CLIENT_SECRET" := s1]> (w_env w)))
  = Service.health valid_url trim
      (Service.with_env w (<["AZURE_CLIENT_SECRET" := s2]> (w_env w))).
Proof.
  intros H1 H2 Ht1 Ht2.
  apply String.eqb_neq in H1, H2, Ht1, Ht2.
  unfold Service.health, Service.validateConfig, Service.authValidateConfig,
    Service.nodeEnv, TokenApi.config, Service.with_env.
  cbn [w_env w_now TokenApi.azure_clientId TokenApi.azure_clientSecret
       TokenApi.azure_tenantId TokenApi.azure_authority
       TokenApi.powerbi_workspaceId TokenApi.powerbi_reportId
       TokenApi.powerbi_apiUrl forallb].
  rewrite !lookup_insert_eq.
  repeat (rewrite lookup_insert_ne by discriminate).
  cbn [truthy_str str_to_string]. rewrite H1, H2, Ht1, Ht2.
  reflexivity.
Qed.

Lemma X20_health_hides_client_secret_witness :
  Service.health Scenario.has_scheme Scenario.no_trim
    (Service.with_env Mock.healthy (<["AZURE_CLIENT_SECRET" := "one"]> Mock.env))
  = Service.health Scenario.has_scheme Scenario.no_trim
      (Service.with_env Mock.healthy (<["AZURE_CLIENT_SECRET" := "two"]> Mock.env)).
Proof.
  apply (X20_health_hides_client_secret Scenario.has_scheme Scenario.no_trim
           Mock.healthy "one" "two"); discriminate.
Defined.

(** X21.  The authentication test [GET /api/health/auth] calls MSAL once and
    answers either 200, then with [hasToken: true] and the positive length of
    the token and without the token itself, or 500 with the error of
    [getAccessToken]. *)
Theorem X21_health_auth_reports_length_only w :
  snd (Service.health_auth w)
  = [EMsal [TokenApi.powerbi_scope (TokenApi.config w)]]
  /\ ((exists accessToken,
         w_msal w [TokenApi.powerbi_scope (TokenApi.config w)]
         = inr (Some accessToken)
         /\ (0 < String.length accessToken)%nat
         /\ fst (Service.health_auth w) =
            {| TokenApi.res_status := 200;
               TokenApi.res_body :=
                 JObj [("status", JStr "ok");
                       ("message", JStr "Authentication successful");
                       ("hasToken", JBool true);
                       ("tokenLength",
                        JNum (Z.of_nat (String.length accessToken)));
                       ("timestamp", JStr (w_now w))] |})
      \/ (exists message,
            fst (Service.health_auth w) =
            {| TokenApi.res_status := 500;
               TokenApi.res_body :=
                 JObj [("status", JStr "error");
                       ("message", JStr "Authentication failed");
                       ("error", JStr ("Authentication failed: " +:+ message));
                       ("timestamp", JStr (w_now w))] |})).
Proof.
  unfold Service.health_auth. rewrite getAccessToken_run.
  destruct (w_msal w _) as [e | [accessToken |]] eqn:Hmsal.
  - split; [reflexivity |]. right. exists e. reflexivity.
  - destruct accessToken as [| c rest].
    + split; [reflexivity |]. right. eexists. reflexivity.
    + split; [reflexivity |]. left. exists (String c rest).
      split; [reflexivity |]. split; [simpl; lia | reflexivity].
  - split; [reflexivity |]. right. eexists. reflexivity.
Qed.

(** X22.  The error-handling middleware answers with status 400, 401 or 500
    and [success: false]; an [UnauthorizedError] is reported as "Unauthorized"
    whatever its message; and unless [NODE_ENV] is exactly "development" the
    response has no [stack]. *)
Theorem X22_error_handler_withholds_stack w err :
  w_env w !! "NODE_ENV" <> Some "development" ->
  let response := Service.errorHandler w err in
  get_prop (TokenApi.res_body response) "stack" = inr None
  /\ get_prop (TokenApi.res_body response) "success" = inr (Some (JBool false))
  /\ (TokenApi.res_status response = 400 \/ TokenApi.res_status response = 401
      \/ TokenApi.res_status response = 500)
  /\ (Service.is_literal (Service.err_name err) "UnauthorizedError" = true ->
      get_prop (TokenApi.res_body response) "error"
      = inr (Some (JStr "Unauthorized"))).
Proof.
  intros Henv. cbv zeta. unfold Service.errorHandler.
  assert (Hdev : Service.is_literal (TokenApi.of_str (w_env w !! "NODE_ENV"))
                   "development" = false).
  { destruct (w_env w !! "NODE_ENV") as [v |]; [| reflexivity]. simpl.
    apply String.eqb_neq. intros ->. apply Henv. reflexivity. }
  rewrite Hdev.
  destruct (Service.is_literal (Service.err_name err) "ValidationError") eqn:Hv.
  - split; [| split; [| split]].
    + destruct (Service.err_message err); reflexivity.
    + destruct (Service.err_message err); reflexivity.
    + left. reflexivity.
    + intros Hu. destruct (Service.err_name err) as [[| | | s | |] |];
        try discriminate Hv. simpl in Hv, Hu.
      apply String.eqb_eq in Hv, Hu. subst s. discriminate Hu.
  - destruct (Service.is_literal (Service.err_name err) "UnauthorizedError").
    + split; [| split; [| split]]; try reflexivity.
      right. left. reflexivity.
    + destruct (truthy (Service.err_message err)) eqn:Hm.
      * split; [| split; [| split]]; try discriminate.
        -- destruct (Service.err_message err); reflexivity.
        -- destruct (Service.err_message err); reflexivity.
        -- right. right. reflexivity.
      * split; [| split; [| split]]; try discriminate; try reflexivity.
        right. right. reflexivity.
Qed.

Lemma X22_error_handler_withholds_stack_witness :
  get_prop
    (TokenApi.res_body
       (Service.errorHandler Mock.healthy
          {| Service.err_name := Some (JStr "TypeError");
             Service.err_message := Some (JStr "boom");
             Service.err_stack := Some (JStr "TypeError: boom at handler") |}))
    "stack" = inr None.
Proof.
  apply (X22_error_handler_withholds_stack Mock.healthy
           {| Service.err_name := Some (JStr "TypeError");
              Service.err_message := Some (JStr "boom");
              Service.err_stack := Some (JStr "TypeError: boom at handler") |}).
  discriminate.
Defined.

(** * [POST /api/embed/config] *)

(** A configuration assembled by [getEmbedConfig] has the default settings. *)
Lemma getEmbedConfig_settings w rid wid config tr :
  run (TokenApi.getEmbedConfig w rid wid) = (Ok config, tr) ->
  get_prop config "settings" = inr (Some default_settings).
Proof.
  rewrite getEmbedConfig_run.
  destruct (run (TokenApi.getAccessToken w)) as [[aad | e] gtr];
    [| discriminate].
  destruct (run (promise_all w _ _)) as [[[rdoc tdoc] | e] ptr];
    [| discriminate].
  cbn [fst snd]. unfold run, TokenApi.embedConfig, bind, lift, throw, ret.
  destruct (get_prop rdoc "id") as [e | id]; [discriminate |].
  destruct (get_prop rdoc "embedUrl") as [e | embedUrl]; [discriminate |].
  destruct (get_prop tdoc "token") as [e | token]; [discriminate |].
  destruct (get_prop tdoc "tokenId") as [e | tokenId]; [discriminate |].
  destruct (get_prop tdoc "expiration") as [e | expiration]; [discriminate |].
  cbv beta iota delta [fst]. intros H. injection H as <- _.
  destruct id, embedUrl, token, tokenId, expiration; reflexivity.
Qed.

(** [router.post('/config')] on a body that is a JSON object. *)
Lemma post_config_run spread w headers fields :
  let rid := assoc "reportId" fields in
  let wid := assoc "workspaceId" fields in
  let settings := assoc "settings" fields in
  Service.post_config spread w
    {| Service.post_headers := headers;
       Service.post_body := Some (JObj fields) |} =
  if negb (truthy rid) || negb (truthy wid)
  then ({| TokenApi.res_status := 400;
           TokenApi.res_body :=
             JObj [("success", JBool false);
                   ("error", JStr "reportId and workspaceId are required");
                   ("timestamp", JStr (w_now w))] |}, [])
  else
    match run (TokenApi.getEmbedConfig w rid wid) with
    | (Throw message, tr) => (TokenApi.failure w message, tr)
    | (Ok config, tr) =>
        ({| TokenApi.res_status := 200;
            TokenApi.res_body :=
              JObj [("success", JBool true);
                    ("data",
                     match settings with
                     | Some custom =>
                         if truthy settings
                         then Service.set_prop config "settings"
                                (spread (Some default_settings) custom)
                         else config
                     | None => config
                     end);
                    ("timestamp", JStr (w_now w))] |}, tr)
    end.
Proof.
  cbv zeta. unfold Service.post_config. cbv zeta.
  cbn [Service.post_body]. unfold run, bind, lift, ret, throw.
  cbn [get_prop].
  destruct (negb (truthy (assoc "reportId" fields))
            || negb (truthy (assoc "workspaceId" fields))); [reflexivity |].
  pose proof (getEmbedConfig_settings w (assoc "reportId" fields)
                (assoc "workspaceId" fields)) as Hsettings.
  unfold run in Hsettings.
  destruct (TokenApi.getEmbedConfig w _ _ []) as [[config | e] tr];
    [| reflexivity].
  specialize (Hsettings config tr eq_refl).
  destruct (assoc "settings" fields) as [custom |]; [| reflexivity].
  destruct (truthy (Some custom)); [| reflexivity].
  rewrite Hsettings. reflexivity.
Qed.

(** X23.  [POST /api/embed/config] insists on both ids in the body: when the
    body lacks [reportId] or [workspaceId] (or holds a falsy value for one),
    the answer is status 400 with "reportId and workspaceId are required" and
    nothing is called, even where the configuration has defaults that the GET
    route would use. *)
Theorem X23_post_requires_ids spread w headers fields :
  truthy (assoc "reportId" fields) && truthy (assoc "workspaceId" fields)
  = false ->
  Service.post_config spread w
    {| Service.post_headers := headers;
       Service.post_body := Some (JObj fields) |} =
  ({| TokenApi.res_status := 400;
      TokenApi.res_body :=
        JObj [("success", JBool false);
              ("error", JStr "reportId and workspaceId are required");
              ("timestamp", JStr (w_now w))] |}, []).
Proof.
  intros Hids. rewrite post_config_run. cbv zeta.
  rewrite <- negb_andb, Hids. reflexivity.
Qed.

Lemma X23_post_requires_ids_witness :
  TokenApi.res_status
    (fst (Service.post_config Scenario.object_spread Mock.healthy
            (Scenario.post_request (Some (JObj [("reportId", JStr "r1")])))))
  = 400
  /\ TokenApi.res_status
       (fst (TokenApi.get_config Mock.healthy
               (Mock.api_request None [("reportId", JStr "r1")]))) = 200.
Proof.
  split.
  - unfold Scenario.post_request.
    rewrite (X23_post_requires_ids Scenario.object_spread Mock.healthy ∅
               [("reportId", JStr "r1")]).
    + reflexivity.
    + reflexivity.
  - reflexivity.
Defined.

(** X24.  With both ids in the body and no custom settings,
    [POST /api/embed/config] is [GET /api/embed/config] with the same ids in
    the query string: same status, same body, same upstream calls. *)
Theorem X24_post_without_settings_is_get spread w headers headers' fields :
  truthy (assoc "reportId" fields) = true ->
  truthy (assoc "workspaceId" fields) = true ->
  truthy (assoc "settings" fields) = false ->
  Service.post_config spread w
    {| Service.post_headers := headers;
       Service.post_body := Some (JObj fields) |} =
  TokenApi.get_config w
    {| TokenApi.req_headers := headers'; TokenApi.req_query := fields |}.
Proof.
  intros Hrid Hwid Hsettings.
  rewrite post_config_run, get_config_run. cbv zeta.
  cbn [TokenApi.req_query]. rewrite Hrid, Hwid. cbn [negb orb].
  destruct (run (TokenApi.getEmbedConfig w _ _)) as [[config | e] tr];
    [| reflexivity].
  rewrite Hsettings.
  destruct (assoc "settings" fields); reflexivity.
Qed.

Lemma X24_post_without_settings_is_get_witness :
  Service.post_config Scenario.object_spread Mock.healthy
    (Scenario.post_request
       (Some (JObj [("reportId", JStr "r1"); ("workspaceId", JStr "ws1")])))
  = TokenApi.get_config Mock.healthy
      (Mock.api_request None
         [("reportId", JStr "r1"); ("workspaceId", JStr "ws1")]).
Proof.
  apply (X24_post_without_settings_is_get Scenario.object_spread Mock.healthy
           ∅ ∅ [("reportId", JStr "r1"); ("workspaceId", JStr "ws1")]);
    reflexivity.
Defined.

(** X25.  With custom settings in the body, a successful
    [POST /api/embed/config] returns the configuration the GET route returns
    for the same ids, after the same calls, with one change: its [settings]
    are the spread of the default settings and the custom ones; [id],
    [embedUrl], [accessToken], [tokenId] and [expiration] are untouched. *)
Theorem X25_post_merges_settings_only spread w headers headers' fields custom
    config tr :
  truthy (assoc "reportId" fields) = true ->
  truthy (assoc "workspaceId" fields) = true ->
  assoc "settings" fields = Some custom ->
  truthy (Some custom) = true ->
  TokenApi.get_config w
    {| TokenApi.req_headers := headers'; TokenApi.req_query := fields |}
  = ({| TokenApi.res_status := 200;
        TokenApi.res_body := JObj [("success", JBool true);
                                   ("data", config);
                                   ("timestamp", JStr (w_now w))] |}, tr) ->
  Service.post_config spread w
    {| Service.post_headers := headers;
       Service.post_body := Some (JObj fields) |}
  = ({| TokenApi.res_status := 200;
        TokenApi.res_body :=
          JObj [("success", JBool true);
                ("data",
                 Service.set_prop config "settings"
                   (spread (Some default_settings) custom));
                ("timestamp", JStr (w_now w))] |}, tr)
  /\ forall key,
       key <> "settings" ->
       get_prop (Service.set_prop config "settings"
                   (spread (Some default_settings) custom)) key
       = get_prop config key.
Proof.
  intros Hrid Hwid Hsettings Htruthy Hget.
  rewrite get_config_run in Hget. cbn [TokenApi.req_query] in Hget.
  rewrite post_config_run. cbv zeta. rewrite Hrid, Hwid. cbn [negb orb].
  pose proof (getEmbedConfig_settings w (assoc "reportId" fields)
                (assoc "workspaceId" fields)) as Hobj.
  destruct (run (TokenApi.getEmbedConfig w _ _)) as [[config' | e] tr'].
  2:{ injection Hget as H _. discriminate H. }
  injection Hget as <- <-.
  rewrite Hsettings, Htruthy. split; [reflexivity |].
  intros key Hkey. specialize (Hobj config' tr' eq_refl).
  destruct config' as [| b | n | s | items | cfields]; try discriminate Hobj.
  unfold Service.set_prop, get_prop. f_equal.
  clear Hobj. apply String.eqb_neq in Hkey.
  induction cfields as [| [k v] rest IH]; cbn [Service.upsert assoc].
  - rewrite Hkey. reflexivity.
  - destruct (String.eqb_spec "settings" k) as [<- | Hk]; cbn [assoc].
    + rewrite Hkey. reflexivity.
    + destruct (String.eqb key k); [reflexivity | exact IH].
Qed.

Lemma X25_post_merges_settings_only_witness :
  get_prop
    (TokenApi.res_body
       (fst (Service.post_config Scenario.object_spread Mock.healthy
               (Scenario.post_request
                  (Some (JObj [("reportId", JStr "r1");
                               ("workspaceId", JStr "ws1");
                               ("settings",
                                JObj [("panes", JObj [])])]))))))
    "success" = inr (Some (JBool true)).
Proof.
  unfold Scenario.post_request.
  rewrite (proj1 (X25_post_merges_settings_only Scenario.object_spread
                    Mock.healthy ∅ ∅
                    [("reportId", JStr "r1"); ("workspaceId", JStr "ws1");
                     ("settings", JObj [("panes", JObj [])])]
                    (JObj [("panes", JObj [])])
                    Mock.expected_config
                    [EMsal ["https://analysis.windows.net/powerbi/api/.default"];
                     EFetch ReportMeta
                       (TokenApi.reportRequest Mock.healthy "aad"
                          (Some (JStr "r1")) (Some (JStr "ws1")));
                     EFetch Mint
                       (TokenApi.mintRequest Mock.healthy "aad"
                          (Some (JStr "r1")) (Some (JStr "ws1")))]
                    eq_refl eq_refl eq_refl eq_refl eq_refl)).
  reflexivity.
Defined.
